(** * The shader build-and-link pipeline of opengl-triangle

    A shallow embedding of the two copies of the pipeline:
      - [Desktop]: [compileShader] and [createShaderProgram] of src/main.cpp,
      - [VxWorks]: [loadShader] and [createProgram] of src/main_vxworks.cpp.

    The functions talk to an OpenGL driver.  The driver is a parameter: an
    arbitrary deterministic implementation of the twelve entry points the
    code uses ([Driver]).  A run of a function yields its return value, the
    driver state it leaves behind and the list, in program order, of the
    OpenGL calls it made and of the lines it wrote to [std::cerr]. *)

From Stdlib Require Import ZArith NArith List String Ascii Bool Lia.
From Stdlib Require Import DecimalString.
From Stdlib Require QArith.
Import ListNotations.

Local Open Scope string_scope.
Local Open Scope list_scope.

(** ** Data *)

(** [GLuint] is unsigned, [GLint] is signed.  The code compares handles and
    flags with zero and never computes with them. *)
Definition GLuint : Type := N.
Definition GLint : Type := Z.
Bind Scope N_scope with GLuint.
Bind Scope Z_scope with GLint.

(** The [GLenum] constants that appear in the two files. *)
Inductive GLenum : Type :=
| GL_VERTEX_SHADER
| GL_FRAGMENT_SHADER
| GL_COMPILE_STATUS
| GL_LINK_STATUS
| GL_INFO_LOG_LENGTH.

Definition GLenum_eqb (a b : GLenum) : bool :=
  match a, b with
  | GL_VERTEX_SHADER, GL_VERTEX_SHADER
  | GL_FRAGMENT_SHADER, GL_FRAGMENT_SHADER
  | GL_COMPILE_STATUS, GL_COMPILE_STATUS
  | GL_LINK_STATUS, GL_LINK_STATUS
  | GL_INFO_LOG_LENGTH, GL_INFO_LOG_LENGTH => true
  | _, _ => false
  end.

(** What a run leaves behind: one entry per OpenGL call, with the arguments
    and, for a call that answers, the answer; and one entry per line sent to
    [std::cerr]. *)
Inductive event : Type :=
| EvCreateShader (type : GLenum) (ret : GLuint)
| EvShaderSource (shader : GLuint) (source : string)
| EvCompileShader (shader : GLuint)
| EvGetShaderiv (shader : GLuint) (pname : GLenum) (ret : GLint)
| EvGetShaderInfoLog (shader : GLuint) (bufSize : Z) (infoLog : string)
| EvDeleteShader (shader : GLuint)
| EvCreateProgram (ret : GLuint)
| EvAttachShader (program shader : GLuint)
| EvLinkProgram (program : GLuint)
| EvGetProgramiv (program : GLuint) (pname : GLenum) (ret : GLint)
| EvGetProgramInfoLog (program : GLuint) (bufSize : Z) (infoLog : string)
| EvDeleteProgram (program : GLuint)
| EvCerr (text : string).

(** ** Text *)

(** The line feed written by a backslash-n inside a literal and by
    [std::endl]. *)
Definition nl : string := String (ascii_of_nat 10) EmptyString.

(** The first [n] characters of [s] (all of [s] when it is shorter). *)
Fixpoint truncate (n : nat) (s : string) : string :=
  match n, s with
  | S n', String c s' => String c (truncate n' s')
  | _, _ => EmptyString
  end.

(** What [glGetShaderInfoLog] and [glGetProgramInfoLog] store in a buffer of
    [bufSize] chars when the driver's log is [log]: at most [bufSize - 1]
    characters, then the terminating NUL.  The text is kept without its
    terminator. *)
Definition written_log (bufSize : Z) (log : string) : string :=
  truncate (Z.to_nat (bufSize - 1)) log.

(** ** The driver *)

(** An OpenGL implementation, as far as the pipeline can tell: a state and
    the twelve entry points.  The four queries read the state and leave it
    as it is; [drvGetShaderInfoLog] and [drvGetProgramInfoLog] give the whole
    log the driver holds, whatever the size of the caller's buffer. *)
Record Driver : Type := {
  gl_state : Type;
  drvCreateShader : gl_state -> GLenum -> GLuint * gl_state;
  drvShaderSource : gl_state -> GLuint -> string -> gl_state;
  drvCompileShader : gl_state -> GLuint -> gl_state;
  drvGetShaderiv : gl_state -> GLuint -> GLenum -> GLint;
  drvGetShaderInfoLog : gl_state -> GLuint -> string;
  drvDeleteShader : gl_state -> GLuint -> gl_state;
  drvCreateProgram : gl_state -> GLuint * gl_state;
  drvAttachShader : gl_state -> GLuint -> GLuint -> gl_state;
  drvLinkProgram : gl_state -> GLuint -> gl_state;
  drvGetProgramiv : gl_state -> GLuint -> GLenum -> GLint;
  drvGetProgramInfoLog : gl_state -> GLuint -> string;
  drvDeleteProgram : gl_state -> GLuint -> gl_state
}.

(** ** Runs *)

Module Run.
Section WithDriver.

Variable drv : Driver.

(** A computation threads the driver state and collects its events. *)
Definition GL (A : Type) : Type :=
  gl_state drv -> A * gl_state drv * list event.

Definition ret {A : Type} (a : A) : GL A := fun s => (a, s, []).

Definition bind {A B : Type} (m : GL A) (k : A -> GL B) : GL B :=
  fun s =>
    let '(a, s1, es1) := m s in
    let '(b, s2, es2) := k a s1 in
    (b, s2, es1 ++ es2).

(** *** The OpenGL entry points, as the code calls them *)

Definition glCreateShader (type : GLenum) : GL GLuint :=
  fun s =>
    let r := drvCreateShader drv s type in
    (fst r, snd r, [EvCreateShader type (fst r)]).

(** [glShaderSource(shader, 1, &source, nullptr)]: one NUL-terminated
    string. *)
Definition glShaderSource (shader : GLuint) (source : string) : GL unit :=
  fun s => (tt, drvShaderSource drv s shader source,
            [EvShaderSource shader source]).

Definition glCompileShader (shader : GLuint) : GL unit :=
  fun s => (tt, drvCompileShader drv s shader, [EvCompileShader shader]).

Definition glGetShaderiv (shader : GLuint) (pname : GLenum) : GL GLint :=
  fun s =>
    let r := drvGetShaderiv drv s shader pname in
    (r, s, [EvGetShaderiv shader pname r]).

(** [glGetShaderInfoLog(shader, bufSize, nullptr, infoLog)]; the result is
    the C string left in [infoLog]. *)
Definition glGetShaderInfoLog (shader : GLuint) (bufSize : Z) : GL string :=
  fun s =>
    let r := written_log bufSize (drvGetShaderInfoLog drv s shader) in
    (r, s, [EvGetShaderInfoLog shader bufSize r]).

Definition glDeleteShader (shader : GLuint) : GL unit :=
  fun s => (tt, drvDeleteShader drv s shader, [EvDeleteShader shader]).

Definition glCreateProgram : GL GLuint :=
  fun s =>
    let r := drvCreateProgram drv s in
    (fst r, snd r, [EvCreateProgram (fst r)]).

Definition glAttachShader (program shader : GLuint) : GL unit :=
  fun s => (tt, drvAttachShader drv s program shader,
            [EvAttachShader program shader]).

Definition glLinkProgram (program : GLuint) : GL unit :=
  fun s => (tt, drvLinkProgram drv s program, [EvLinkProgram program]).

Definition glGetProgramiv (program : GLuint) (pname : GLenum) : GL GLint :=
  fun s =>
    let r := drvGetProgramiv drv s program pname in
    (r, s, [EvGetProgramiv program pname r]).

Definition glGetProgramInfoLog (program : GLuint) (bufSize : Z) : GL string :=
  fun s =>
    let r := written_log bufSize (drvGetProgramInfoLog drv s program) in
    (r, s, [EvGetProgramInfoLog program bufSize r]).

Definition glDeleteProgram (program : GLuint) : GL unit :=
  fun s => (tt, drvDeleteProgram drv s program, [EvDeleteProgram program]).

(** One statement [std::cerr << ... << std::endl]; [text] is everything
    it writes. *)
Definition cerr (text : string) : GL unit :=
  fun s => (tt, s, [EvCerr text]).

End WithDriver.

Arguments ret {drv A} a.
Arguments bind {drv A B} m k.
Arguments cerr {drv} text.

End Run.

Import Run.

Declare Scope gl_scope.
Delimit Scope gl_scope with gl.
Notation "x <- m ;; k" := (bind m (fun x => k))
  (at level 61, m at next level, right associativity) : gl_scope.
Notation "m ;; k" := (bind m (fun _ => k))
  (at level 61, right associativity) : gl_scope.

(** The three parts of a run. *)
Definition value {S A : Type} (r : A * S * list event) : A := fst (fst r).
Definition final {S A : Type} (r : A * S * list event) : S := snd (fst r).
Definition events {S A : Type} (r : A * S * list event) : list event := snd r.

(** ** src/main.cpp *)

Module Desktop.

(** Lines 7-19. *)
Definition vertexShaderSrc : string := "
    #version 330 core
    layout (location = 0) in vec3 aPos;
    layout (location = 1) in vec3 aColor;

    out vec3 ourColor;

    void main()
    {
        gl_Position = vec4(aPos, 1.0);
        ourColor = aColor;
    }
".

(** Lines 22-32. *)
Definition fragmentShaderSrc : string := "
    #version 330 core
    out vec4 FragColor;

    in vec3 ourColor;

    void main()
    {
        FragColor = vec4(ourColor, 1.0);
    }
".

Definition compile_tag : string := "ERROR::SHADER::COMPILATION_FAILED" ++ nl.
Definition link_tag : string := "ERROR::PROGRAM::LINKING_FAILED" ++ nl.

Section WithDriver.

Variable drv : Driver.
Local Open Scope gl_scope.

(** Lines 40-55. *)
Definition compileShader (type : GLenum) (source : string) : GL drv GLuint :=
  shader <- glCreateShader drv type ;;
  glShaderSource drv shader source ;;
  glCompileShader drv shader ;;
  success <- glGetShaderiv drv shader GL_COMPILE_STATUS ;;
  if (success =? 0)%Z then
    infoLog <- glGetShaderInfoLog drv shader 512 ;;
    cerr (compile_tag ++ infoLog ++ nl) ;;
    glDeleteShader drv shader ;;
    ret 0%N
  else
    ret shader.

(** Lines 62-84: the body of [createShaderProgram] from its guard on, the
    step the specification calls linkProgram.  The local [program] is
    overwritten with zero on the failure branch. *)
Definition linkProgram (vertexShader fragmentShader : GLuint) : GL drv GLuint :=
  if (vertexShader =? 0)%N || (fragmentShader =? 0)%N then
    ret 0%N
  else
    program <- glCreateProgram drv ;;
    glAttachShader drv program vertexShader ;;
    glAttachShader drv program fragmentShader ;;
    glLinkProgram drv program ;;
    success <- glGetProgramiv drv program GL_LINK_STATUS ;;
    program <- (if (success =? 0)%Z then
                  infoLog <- glGetProgramInfoLog drv program 512 ;;
                  cerr (link_tag ++ infoLog ++ nl) ;;
                  glDeleteProgram drv program ;;
                  ret 0%N
                else
                  ret program) ;;
    glDeleteShader drv vertexShader ;;
    glDeleteShader drv fragmentShader ;;
    ret program.

(** Lines 58-85. *)
Definition createShaderProgram (vtxSrc fragSrc : string) : GL drv GLuint :=
  vertexShader <- compileShader GL_VERTEX_SHADER vtxSrc ;;
  fragmentShader <- compileShader GL_FRAGMENT_SHADER fragSrc ;;
  linkProgram vertexShader fragmentShader.

End WithDriver.

End Desktop.

(** ** src/main_vxworks.cpp *)

Module VxWorks.

(** Lines 9-17. *)
Definition vertexShaderSrc : string := "
attribute vec4 a_position;
attribute vec3 a_color;
varying vec3 v_color;
void main() {
    gl_Position = a_position;
    v_color = a_color;
}
".

(** Lines 20-26. *)
Definition fragmentShaderSrc : string := "
precision mediump float;
varying vec3 v_color;
void main() {
    gl_FragColor = vec4(v_color, 1.0);
}
".

Definition compile_tag : string := "Error compiling shader:" ++ nl.
Definition link_tag : string := "Error linking program:" ++ nl.

Section WithDriver.

Variable drv : Driver.
Local Open Scope gl_scope.

(** Lines 28-48.  [infoLog] is a fresh array of [infoLen] chars. *)
Definition loadShader (type : GLenum) (source : string) : GL drv GLuint :=
  shader <- glCreateShader drv type ;;
  glShaderSource drv shader source ;;
  glCompileShader drv shader ;;
  compiled <- glGetShaderiv drv shader GL_COMPILE_STATUS ;;
  if (compiled =? 0)%Z then
    infoLen <- glGetShaderiv drv shader GL_INFO_LOG_LENGTH ;;
    (if (1 <? infoLen)%Z then
       infoLog <- glGetShaderInfoLog drv shader infoLen ;;
       cerr (compile_tag ++ infoLog ++ nl)
     else
       ret tt) ;;
    glDeleteShader drv shader ;;
    ret 0%N
  else
    ret shader.

(** Lines 54-81: the body of [createProgram] from its guard on. *)
Definition linkProgram (vtxShader fragShader : GLuint) : GL drv GLuint :=
  if (vtxShader =? 0)%N || (fragShader =? 0)%N then
    ret 0%N
  else
    program <- glCreateProgram drv ;;
    glAttachShader drv program vtxShader ;;
    glAttachShader drv program fragShader ;;
    glLinkProgram drv program ;;
    linked <- glGetProgramiv drv program GL_LINK_STATUS ;;
    if (linked =? 0)%Z then
      infoLen <- glGetProgramiv drv program GL_INFO_LOG_LENGTH ;;
      (if (1 <? infoLen)%Z then
         infoLog <- glGetProgramInfoLog drv program infoLen ;;
         cerr (link_tag ++ infoLog ++ nl)
       else
         ret tt) ;;
      glDeleteProgram drv program ;;
      ret 0%N
    else
      glDeleteShader drv vtxShader ;;
      glDeleteShader drv fragShader ;;
      ret program.

(** Lines 50-82. *)
Definition createProgram (vtxSrc fragSrc : string) : GL drv GLuint :=
  vtxShader <- loadShader GL_VERTEX_SHADER vtxSrc ;;
  fragShader <- loadShader GL_FRAGMENT_SHADER fragSrc ;;
  linkProgram vtxShader fragShader.

End WithDriver.

End VxWorks.

(** ** Reading a run *)

Definition count (p : event -> bool) (es : list event) : nat :=
  List.length (filter p es).

(** A [glCreateShader] that answered a handle, that is, not zero. *)
Definition is_shader_created (e : event) : bool :=
  match e with EvCreateShader _ h => negb (h =? 0)%N | _ => false end.

Definition is_deleteShader (e : event) : bool :=
  match e with EvDeleteShader _ => true | _ => false end.

(** The calls that take or answer a program object. *)
Definition is_program_call (e : event) : bool :=
  match e with
  | EvCreateProgram _ | EvAttachShader _ _ | EvLinkProgram _
  | EvGetProgramiv _ _ _ | EvGetProgramInfoLog _ _ _ | EvDeleteProgram _ => true
  | _ => false
  end.

(** The calls that change driver state: everything but the queries and the
    writes to [std::cerr]. *)
Definition is_command (e : event) : bool :=
  match e with
  | EvGetShaderiv _ _ _ | EvGetShaderInfoLog _ _ _
  | EvGetProgramiv _ _ _ | EvGetProgramInfoLog _ _ _ | EvCerr _ => false
  | _ => true
  end.

Definition commands (es : list event) : list event := filter is_command es.

(** The lines written to [std::cerr], in order. *)
Definition cerr_texts (es : list event) : list string :=
  flat_map (fun e => match e with EvCerr t => [t] | _ => [] end) es.

(** The stage kinds [glCreateShader] was asked for, in order. *)
Definition created_kinds (es : list event) : list GLenum :=
  flat_map (fun e => match e with EvCreateShader k _ => [k] | _ => [] end) es.

Definition created_shaders (es : list event) : list GLuint :=
  flat_map (fun e => match e with EvCreateShader _ h => [h] | _ => [] end) es.

Definition deleted_shaders (es : list event) : list GLuint :=
  flat_map (fun e => match e with EvDeleteShader h => [h] | _ => [] end) es.

Definition created_programs (es : list event) : list GLuint :=
  flat_map (fun e => match e with EvCreateProgram h => [h] | _ => [] end) es.

Definition deleted_programs (es : list event) : list GLuint :=
  flat_map (fun e => match e with EvDeleteProgram h => [h] | _ => [] end) es.

(** The answers to [glGetShaderiv(_, pname, _)], in order. *)
Definition shader_answers (pname : GLenum) (es : list event) : list GLint :=
  flat_map (fun e => match e with
                     | EvGetShaderiv _ p r => if GLenum_eqb p pname then [r] else []
                     | _ => []
                     end) es.

(** The answers to [glGetProgramiv(_, pname, _)], in order. *)
Definition program_answers (pname : GLenum) (es : list event) : list GLint :=
  flat_map (fun e => match e with
                     | EvGetProgramiv _ p r => if GLenum_eqb p pname then [r] else []
                     | _ => []
                     end) es.

(** A status flag as C reads it: zero is false. *)
Definition flag (r : GLint) : bool := negb (r =? 0)%Z.

(** The outcome of every compile in the run, and of every link. *)
Definition compile_results (es : list event) : list bool :=
  map flag (shader_answers GL_COMPILE_STATUS es).

Definition link_results (es : list event) : list bool :=
  map flag (program_answers GL_LINK_STATUS es).

(** The compiles and links that failed. *)
Definition failures (es : list event) : nat :=
  List.length (filter negb (compile_results es ++ link_results es)).

(** The log lengths the driver reported, for shaders and for programs. *)
Definition info_lengths (es : list event) : list GLint :=
  shader_answers GL_INFO_LOG_LENGTH es ++ program_answers GL_INFO_LOG_LENGTH es.

(** The log texts that reached the caller's buffers. *)
Definition fetched_logs (es : list event) : list string :=
  flat_map (fun e => match e with
                     | EvGetShaderInfoLog _ _ l | EvGetProgramInfoLog _ _ l => [l]
                     | _ => []
                     end) es.

(** ** A small driver to run the code on *)

Module Toy.

(** Object names are handed out in sequence from [next_name]; a shader
    carries the source it was last given; [live_shaders] and [live_programs]
    are the objects created and not yet deleted. *)
Record state : Type := {
  next_name : GLuint;
  sources : list (GLuint * string);
  live_shaders : list GLuint;
  live_programs : list GLuint
}.

Definition init : state :=
  {| next_name := 1%N; sources := []; live_shaders := []; live_programs := [] |}.

Fixpoint source_of (h : GLuint) (l : list (GLuint * string)) : string :=
  match l with
  | [] => ""
  | (h', src) :: l' => if (h' =? h)%N then src else source_of h l'
  end.

Definition remove (h : GLuint) (l : list GLuint) : list GLuint :=
  filter (fun x => negb (x =? h)%N) l.

(** [GL_INFO_LOG_LENGTH]: the characters of the log and its terminator,
    zero when there is no log. *)
Definition log_length (log : string) : GLint :=
  match log with
  | EmptyString => 0%Z
  | _ => (Z.of_nat (String.length log) + 1)%Z
  end.

Definition log_of (verdict : option string) : string :=
  match verdict with Some log => log | None => "" end.

Definition status_of (verdict : option string) : GLint :=
  match verdict with Some _ => 0%Z | None => 1%Z end.

Section Toy.

(** [compiler src] is [None] when [src] compiles and [Some log] when it
    does not; [linker] likewise, for every program. *)
Variable compiler : string -> option string.
Variable linker : option string.

Definition driver : Driver := {|
  gl_state := state;
  drvCreateShader := fun s _ =>
    (next_name s,
     {| next_name := (next_name s + 1)%N; sources := sources s;
        live_shaders := live_shaders s ++ [next_name s];
        live_programs := live_programs s |});
  drvShaderSource := fun s h src =>
    {| next_name := next_name s; sources := (h, src) :: sources s;
       live_shaders := live_shaders s; live_programs := live_programs s |};
  drvCompileShader := fun s _ => s;
  drvGetShaderiv := fun s h pname =>
    match pname with
    | GL_COMPILE_STATUS => status_of (compiler (source_of h (sources s)))
    | GL_INFO_LOG_LENGTH => log_length (log_of (compiler (source_of h (sources s))))
    | _ => 0%Z
    end;
  drvGetShaderInfoLog := fun s h => log_of (compiler (source_of h (sources s)));
  drvDeleteShader := fun s h =>
    {| next_name := next_name s; sources := sources s;
       live_shaders := remove h (live_shaders s);
       live_programs := live_programs s |};
  drvCreateProgram := fun s =>
    (next_name s,
     {| next_name := (next_name s + 1)%N; sources := sources s;
        live_shaders := live_shaders s;
        live_programs := live_programs s ++ [next_name s] |});
  drvAttachShader := fun s _ _ => s;
  drvLinkProgram := fun s _ => s;
  drvGetProgramiv := fun s _ pname =>
    match pname with
    | GL_LINK_STATUS => status_of linker
    | GL_INFO_LOG_LENGTH => log_length (log_of linker)
    | _ => 0%Z
    end;
  drvGetProgramInfoLog := fun _ _ => log_of linker;
  drvDeleteProgram := fun s h =>
    {| next_name := next_name s; sources := sources s;
       live_shaders := live_shaders s;
       live_programs := remove h (live_programs s) |}
|}.

End Toy.

(** A compiler that wants an entry point and says why it failed. *)
Definition glsl (src : string) : option string :=
  match index 0 "void main()" src with
  | Some _ => None
  | None => Some "0:1(1): error: no entry point"
  end.

(** The same compiler, with nothing to say when it fails. *)
Definition terse (src : string) : option string :=
  match index 0 "void main()" src with
  | Some _ => None
  | None => Some ""
  end.

(** A compiler whose complaint is [n] characters long. *)
Definition verbose (n : nat) (src : string) : option string :=
  match index 0 "void main()" src with
  | Some _ => None
  | None => Some (string_of_list_ascii (repeat "!"%char n))
  end.

(** A source the three compilers reject. *)
Definition broken : string := "void main( {".

End Toy.

(** The driver's part in compiling one stage: the handle it answers, the
    state once the source is attached and compiled, and what it answers
    about the result. *)
Section Stage.

Variable drv : Driver.

Definition stage_handle (s : gl_state drv) (type : GLenum) : GLuint :=
  fst (drvCreateShader drv s type).

Definition stage_state (s : gl_state drv) (type : GLenum) (source : string)
  : gl_state drv :=
  drvCompileShader drv
    (drvShaderSource drv (snd (drvCreateShader drv s type))
       (stage_handle s type) source)
    (stage_handle s type).

Definition stage_status (s : gl_state drv) (type : GLenum) (source : string)
  : GLint :=
  drvGetShaderiv drv (stage_state s type source) (stage_handle s type)
    GL_COMPILE_STATUS.

Definition stage_log_length (s : gl_state drv) (type : GLenum) (source : string)
  : GLint :=
  drvGetShaderiv drv (stage_state s type source) (stage_handle s type)
    GL_INFO_LOG_LENGTH.

Definition stage_log (s : gl_state drv) (type : GLenum) (source : string)
  : string :=
  drvGetShaderInfoLog drv (stage_state s type source) (stage_handle s type).

(** Its part in linking: the program handle it answers, the state once
    both shaders are attached and the program linked, and what it answers
    about the result. *)
Definition link_handle (s : gl_state drv) : GLuint :=
  fst (drvCreateProgram drv s).

Definition link_state (s : gl_state drv) (vs fs : GLuint) : gl_state drv :=
  drvLinkProgram drv
    (drvAttachShader drv
       (drvAttachShader drv (snd (drvCreateProgram drv s)) (link_handle s) vs)
       (link_handle s) fs)
    (link_handle s).

Definition link_status (s : gl_state drv) (vs fs : GLuint) : GLint :=
  drvGetProgramiv drv (link_state s vs fs) (link_handle s) GL_LINK_STATUS.

Definition link_log_length (s : gl_state drv) (vs fs : GLuint) : GLint :=
  drvGetProgramiv drv (link_state s vs fs) (link_handle s) GL_INFO_LOG_LENGTH.

Definition link_log (s : gl_state drv) (vs fs : GLuint) : string :=
  drvGetProgramInfoLog drv (link_state s vs fs) (link_handle s).

End Stage.

(** The handles and texts of the program logs fetched, in order. *)
Definition program_logs (es : list event) : list (GLuint * string) :=
  flat_map (fun e => match e with
                     | EvGetProgramInfoLog h _ l => [(h, l)]
                     | _ => []
                     end) es.

(** The events of a stage that compiled: shader [h] is created with the
    kind [type], given [source] and compiled, and the compile status then
    asked of [h] is true. *)
Definition stage_compiled (es : list event) (type : GLenum) (source : string)
  (h : GLuint) : Prop :=
  exists st : GLint,
    flag st = true /\
    es = [EvCreateShader type h; EvShaderSource h source; EvCompileShader h;
          EvGetShaderiv h GL_COMPILE_STATUS st].

(** The events of a link that succeeded: program [h] is created, [vs] and
    [fs] are attached to it, it is linked, and the link status then asked of
    [h] is true. *)
Definition program_linked (es : list event) (vs fs h : GLuint) : Prop :=
  exists st : GLint,
    flag st = true /\
    es = [EvCreateProgram h; EvAttachShader h vs; EvAttachShader h fs;
          EvLinkProgram h; EvGetProgramiv h GL_LINK_STATUS st].

(** A handle is that of a whole program when the run is: a vertex stage
    that compiled [vtxSrc], a fragment stage that compiled [fragSrc], a link
    of these two shaders into the program [h] that succeeded, and after that
    nothing but deletions of shaders.  Then every status the run was answered
    is true, [h] is the one program it created, and it deleted no program. *)
Definition fully_valid (es : list event) (vtxSrc fragSrc : string) (h : GLuint)
  : Prop :=
  (compile_results es = [true; true] /\ link_results es = [true] /\
   created_programs es = [h] /\ deleted_programs es = []) /\
  exists (vs fs : GLuint) (ev ef el rest : list event),
    stage_compiled ev GL_VERTEX_SHADER vtxSrc vs /\
    stage_compiled ef GL_FRAGMENT_SHADER fragSrc fs /\
    program_linked el vs fs h /\
    es = ev ++ ef ++ el ++ rest /\
    forallb is_deleteShader rest = true.

(** The calls that change driver state, [glDeleteShader] apart. *)
Definition is_build_call (e : event) : bool :=
  is_command e && negb (is_deleteShader e).

(** *** Further readings *)

(** The pairs (program, shader) given to [glAttachShader], in order. *)
Definition attached (es : list event) : list (GLuint * GLuint) :=
  flat_map (fun e => match e with EvAttachShader p h => [(p, h)] | _ => [] end) es.

(** [l1] is [l2] with some of its entries left out. *)
Fixpoint subseq (l1 l2 : list GLuint) {struct l2} : bool :=
  match l1, l2 with
  | [], _ => true
  | _ :: _, [] => false
  | x :: xs, y :: ys => if (x =? y)%N then subseq xs ys else subseq l1 ys
  end.

(** ** The hosts: what the two files do around the pipeline *)

(** The macros of the GLFW, GLEW, OpenGL and EGL headers that the two
    [main] functions pass on as arguments without looking at them. *)
Inductive macro : Type :=
| GLFW_CONTEXT_VERSION_MAJOR | GLFW_CONTEXT_VERSION_MINOR
| GLFW_OPENGL_PROFILE | GLFW_OPENGL_CORE_PROFILE | GLFW_OPENGL_FORWARD_COMPAT
| GLFW_KEY_ESCAPE
| GL_TRUE | GL_FALSE | GL_ARRAY_BUFFER | GL_STATIC_DRAW | GL_FLOAT
| GL_COLOR_BUFFER_BIT | GL_TRIANGLES
| EGL_DEFAULT_DISPLAY | EGL_SURFACE_TYPE | EGL_WINDOW_BIT
| EGL_RENDERABLE_TYPE | EGL_OPENGL_ES2_BIT
| EGL_RED_SIZE | EGL_GREEN_SIZE | EGL_BLUE_SIZE | EGL_ALPHA_SIZE
| EGL_DEPTH_SIZE | EGL_NONE | EGL_CONTEXT_CLIENT_VERSION
| EGL_WIDTH | EGL_HEIGHT.

(** A [float] literal; those of the code are 0, 1/2, -1/2 and 1. *)
Definition float : Type := QArith_base.Q.
Definition f0 : float := QArith_base.Qmake 0 1.
Definition f1 : float := QArith_base.Qmake 1 1.
Definition half : float := QArith_base.Qmake 1 2.
Definition minus_half : float := QArith_base.Qmake (-1) 2.

(** An [int] argument, written as a literal or as a macro. *)
Inductive int_arg : Type :=
| Lit (z : Z)
| Mac (m : macro).

(** The last argument of [glVertexAttribPointer]: a byte offset into the
    bound buffer, or an array of the caller. *)
Inductive pointer_arg : Type :=
| Offset (bytes : Z)
| Client (data : list float).

(** The function pointers the code hands over. *)
Inductive callback : Type :=
| framebuffer_size_callback_address.

(** The entry points the two [main] functions call besides the twelve of the
    pipeline, with their arguments; the index is what the call answers,
    through its result or through the variables it is given to fill.
    Pointers and EGL handles are integers, the null pointer is zero. *)
Inductive api : Type -> Type :=
| glfwInit : api Z
| glfwWindowHint (hint : macro) (value : int_arg) : api unit
| glfwCreateWindow (width height : Z) (title : string) (monitor share : Z) : api Z
| glfwTerminate : api unit
| glfwMakeContextCurrent (window : Z) : api unit
| glfwSetFramebufferSizeCallback (window : Z) (cbfun : callback) : api unit
| glfwWindowShouldClose (window : Z) : api Z
| glfwGetKey (window : Z) (key : macro) : api Z
| glfwSetWindowShouldClose (window : Z) (value : Z) : api unit
| glfwSwapBuffers (window : Z) : api unit
| glfwPollEvents : api unit
| glfwDestroyWindow (window : Z) : api unit
| set_glewExperimental (value : macro) : api unit
| glewInit : api Z
| glViewport (x y width height : Z) : api unit
| glGenVertexArrays (n : Z) : api GLuint
| glGenBuffers (n : Z) : api GLuint
| glBindVertexArray (array : GLuint) : api unit
| glBindBuffer (target : macro) (buffer : GLuint) : api unit
| glBufferData (target : macro) (size : Z) (data : list float) (usage : macro) : api unit
| glVertexAttribPointer (index : GLuint) (size : Z) (type normalized : macro)
    (stride : Z) (pointer : pointer_arg) : api unit
| glEnableVertexAttribArray (index : GLuint) : api unit
| glDisableVertexAttribArray (index : GLuint) : api unit
| glClearColor (red green blue alpha : float) : api unit
| glClear (mask : macro) : api unit
| glUseProgram (program : GLuint) : api unit
| glDrawArrays (mode : macro) (first count : Z) : api unit
| glDeleteVertexArrays (n : Z) (array : GLuint) : api unit
| glDeleteBuffers (n : Z) (buffer : GLuint) : api unit
| glGetAttribLocation (program : GLuint) (name : string) : api GLint
| eglGetDisplay (display_id : macro) : api Z
| eglInitialize (dpy : Z) : api (Z * Z * Z)
| eglChooseConfig (dpy : Z) (attrib_list : list int_arg) (config_size : Z)
    : api (Z * Z * Z)
| eglCreateWindowSurface (dpy config win : Z) (attrib_list : option (list int_arg))
    : api Z
| eglCreateContext (dpy config share_context : Z) (attrib_list : list int_arg) : api Z
| eglMakeCurrent (dpy draw read ctx : Z) : api Z
| eglQuerySurface (dpy surface : Z) (attribute : macro) : api Z
| eglSwapBuffers (dpy surface : Z) : api unit
| eglDestroySurface (dpy surface : Z) : api unit
| eglDestroyContext (dpy ctx : Z) : api unit
| eglTerminate (dpy : Z) : api unit
| taskDelay (ticks : Z) : api unit.

(** What a host leaves behind: the events of the pipeline it runs, its own
    calls with their answers, and its lines on [std::cerr] and
    [std::cout]. *)
Inductive host_event : Type :=
| Pipeline (e : event)
| Called (R : Type) (c : api R) (r : R)
| Stderr (text : string)
| Stdout (text : string).

Arguments Called {R} c r.

(** A platform: an OpenGL driver, the other entry points on the same state,
    and what the build and the headers fix: whether [__APPLE__] is defined,
    the values of the macros the code compares with, and the size of a
    [float].  For [eglInitialize] the answer is the result, the major and
    the minor version; for [eglChooseConfig] the result, the configuration
    and the number of configurations; for [eglQuerySurface] the value. *)
Record Platform : Type := {
  gl : Driver;
  respond : forall R : Type, gl_state gl -> api R -> R * gl_state gl;
  APPLE : bool;
  GLEW_OK : Z;
  GLFW_PRESS : Z;
  EGL_NO_DISPLAY : Z;
  EGL_NO_SURFACE : Z;
  EGL_NO_CONTEXT : Z;
  sizeof_float : Z
}.

Arguments respond p {R} s c.

(** An [int] printed by [operator<<]. *)
Definition decimal (z : Z) : string := NilZero.string_of_int (Z.to_int z).

(** A [GLint] passed where a [GLuint] is expected. *)
Definition to_GLuint (z : GLint) : GLuint := Z.to_N (z mod 2 ^ 32).

Module Host.
Section WithPlatform.

Variable p : Platform.

Definition Host (A : Type) : Type :=
  gl_state (gl p) -> A * gl_state (gl p) * list host_event.

Definition ret {A : Type} (a : A) : Host A := fun s => (a, s, []).

Definition bind {A B : Type} (m : Host A) (k : A -> Host B) : Host B :=
  fun s =>
    let '(a, s1, es1) := m s in
    let '(b, s2, es2) := k a s1 in
    (b, s2, es1 ++ es2).

(** A call of the host. *)
Definition call {R : Type} (c : api R) : Host R :=
  fun s =>
    let r := respond p s c in
    (fst r, snd r, [Called c (fst r)]).

(** A run of the pipeline inside the host. *)
Definition pipeline {A : Type} (m : GL (gl p) A) : Host A :=
  fun s =>
    let r := m s in
    (fst (fst r), snd (fst r), map Pipeline (snd r)).

(** [std::cerr << text << std::endl] and [std::cout << ... << std::endl]. *)
Definition cerr (text : string) : Host unit :=
  fun s => (tt, s, [Stderr (text ++ nl)]).

Definition cout (text : string) : Host unit :=
  fun s => (tt, s, [Stdout (text ++ nl)]).

End WithPlatform.

Arguments ret {p A} a.
Arguments bind {p A B} m k.
Arguments call {p R} c.
Arguments pipeline {p A} m.
Arguments cerr {p} text.
Arguments cout {p} text.

End Host.

Declare Scope host_scope.
Delimit Scope host_scope with host.
Notation "x <- m ;; k" := (Host.bind m (fun x => k))
  (at level 61, m at next level, right associativity) : host_scope.
Notation "m ;; k" := (Host.bind m (fun _ => k))
  (at level 61, right associativity) : host_scope.

(** The three parts of a run of a host. *)
Definition result {S A : Type} (r : A * S * list host_event) : A := fst (fst r).
Definition state_after {S A : Type} (r : A * S * list host_event) : S := snd (fst r).
Definition calls {S A : Type} (r : A * S * list host_event) : list host_event := snd r.

(** *** src/main.cpp, lines 34-37 and 87-184 *)

Module DesktopMain.
Section WithPlatform.

Variable p : Platform.
Local Open Scope host_scope.
Import Host.

(** Lines 35-37. *)
Definition framebuffer_size_callback (window width height : Z) : Host p unit :=
  call (glViewport 0 0 width height).

(** Lines 127-132. *)
Definition vertices : list float :=
  [ f0; half; f0;  f1; f0; f0;
    minus_half; minus_half; f0;  f0; f1; f0;
    half; minus_half; f0;  f0; f0; f1 ].

(** Lines 157-174, the [while] statement, with a bound on the number of its
    passes: [true] when the loop is left, [false] when the bound is reached
    first. *)
Fixpoint render_loop (fuel : nat) (window : Z) (shaderProgram VAO : GLuint)
  : Host p bool :=
  match fuel with
  | O => ret false
  | S fuel' =>
      close <- call (glfwWindowShouldClose window) ;;
      if (close =? 0)%Z then
        key <- call (glfwGetKey window GLFW_KEY_ESCAPE) ;;
        (if (key =? GLFW_PRESS p)%Z
         then call (glfwSetWindowShouldClose window 1)
         else ret tt) ;;
        call (glClearColor f1 f1 f1 f1) ;;
        call (glClear GL_COLOR_BUFFER_BIT) ;;
        call (glUseProgram shaderProgram) ;;
        call (glBindVertexArray VAO) ;;
        call (glDrawArrays GL_TRIANGLES 0 3) ;;
        call (glfwSwapBuffers window) ;;
        call glfwPollEvents ;;
        render_loop fuel' window shaderProgram VAO
      else
        ret true
  end.

(** Lines 87-184.  The result is the value [main] returns, or [None] when
    the loop has not been left within [fuel] passes. *)
Definition main (fuel : nat) : Host p (option Z) :=
  ok <- call glfwInit ;;
  if (ok =? 0)%Z then
    cerr "Failed to initialize GLFW" ;;
    ret (Some (-1)%Z)
  else
    call (glfwWindowHint GLFW_CONTEXT_VERSION_MAJOR (Lit 3)) ;;
    call (glfwWindowHint GLFW_CONTEXT_VERSION_MINOR (Lit 3)) ;;
    call (glfwWindowHint GLFW_OPENGL_PROFILE (Mac GLFW_OPENGL_CORE_PROFILE)) ;;
    (if APPLE p
     then call (glfwWindowHint GLFW_OPENGL_FORWARD_COMPAT (Mac GL_TRUE))
     else ret tt) ;;
    window <- call (glfwCreateWindow 800 600 "OpenGL Window" 0 0) ;;
    if (window =? 0)%Z then
      cerr "Failed to create GLFW window" ;;
      call glfwTerminate ;;
      ret (Some (-1)%Z)
    else
      call (glfwMakeContextCurrent window) ;;
      call (glfwSetFramebufferSizeCallback window framebuffer_size_callback_address) ;;
      call (set_glewExperimental GL_TRUE) ;;
      err <- call glewInit ;;
      if negb (err =? GLEW_OK p)%Z then
        cerr "Failed to initialize GLEW" ;;
        ret (Some (-1)%Z)
      else
        shaderProgram <- pipeline (Desktop.createShaderProgram (gl p)
                           Desktop.vertexShaderSrc Desktop.fragmentShaderSrc) ;;
        if (shaderProgram =? 0)%N then
          call glfwTerminate ;;
          ret (Some (-1)%Z)
        else
          VAO <- call (glGenVertexArrays 1) ;;
          VBO <- call (glGenBuffers 1) ;;
          call (glBindVertexArray VAO) ;;
          call (glBindBuffer GL_ARRAY_BUFFER VBO) ;;
          call (glBufferData GL_ARRAY_BUFFER
                  (Z.of_nat (List.length vertices) * sizeof_float p)
                  vertices GL_STATIC_DRAW) ;;
          call (glVertexAttribPointer 0 3 GL_FLOAT GL_FALSE
                  (6 * sizeof_float p) (Offset 0)) ;;
          call (glEnableVertexAttribArray 0) ;;
          call (glVertexAttribPointer 1 3 GL_FLOAT GL_FALSE
                  (6 * sizeof_float p) (Offset (3 * sizeof_float p))) ;;
          call (glEnableVertexAttribArray 1) ;;
          call (glBindBuffer GL_ARRAY_BUFFER 0) ;;
          call (glBindVertexArray 0) ;;
          left <- render_loop fuel window shaderProgram VAO ;;
          if left then
            call (glDeleteVertexArrays 1 VAO) ;;
            call (glDeleteBuffers 1 VBO) ;;
            pipeline (glDeleteProgram (gl p) shaderProgram) ;;
            call (glfwDestroyWindow window) ;;
            call glfwTerminate ;;
            ret (Some 0%Z)
          else
            ret None.

End WithPlatform.
End DesktopMain.

(** *** src/main_vxworks.cpp, lines 86-221 *)

Module VxWorksMain.
Section WithPlatform.

Variable p : Platform.
Local Open Scope host_scope.
Import Host.

(** Lines 103-112. *)
Definition configAttribs : list int_arg :=
  [ Mac EGL_SURFACE_TYPE; Mac EGL_WINDOW_BIT;
    Mac EGL_RENDERABLE_TYPE; Mac EGL_OPENGL_ES2_BIT;
    Mac EGL_RED_SIZE; Lit 8;
    Mac EGL_GREEN_SIZE; Lit 8;
    Mac EGL_BLUE_SIZE; Lit 8;
    Mac EGL_ALPHA_SIZE; Lit 8;
    Mac EGL_DEPTH_SIZE; Lit 16;
    Mac EGL_NONE ].

(** Lines 130-133. *)
Definition contextAttribs : list int_arg :=
  [ Mac EGL_CONTEXT_CLIENT_VERSION; Lit 2; Mac EGL_NONE ].

(** Lines 164-168. *)
Definition vertices : list float :=
  [ f0; half; f0;
    minus_half; minus_half; f0;
    half; minus_half; f0 ].

(** Lines 171-175. *)
Definition colors : list float :=
  [ f1; f0; f0;
    f0; f1; f0;
    f0; f0; f1 ].

(** Lines 202-204, the [while (true)] statement, with a bound on the number
    of its passes: [true] when the loop is left, [false] when the bound is
    reached first. *)
Fixpoint delay_loop (fuel : nat) : Host p bool :=
  match fuel with
  | O => ret false
  | S fuel' =>
      call (taskDelay 60) ;;
      delay_loop fuel'
  end.

(** Lines 86-213.  The result is the value [vx_main] returns, or [None]
    when the last loop has not been left within [fuel] passes. *)
Definition vx_main (fuel : nat) : Host p (option Z) :=
  display <- call (eglGetDisplay EGL_DEFAULT_DISPLAY) ;;
  if (display =? EGL_NO_DISPLAY p)%Z then
    cerr "Failed to get EGL display" ;;
    ret (Some (-1)%Z)
  else
    version <- call (eglInitialize display) ;;
    let '(ok, major, minor) := version in
    if (ok =? 0)%Z then
      cerr "Failed to initialize EGL" ;;
      ret (Some (-1)%Z)
    else
      cout ("EGL version: " ++ decimal major ++ "." ++ decimal minor) ;;
      chosen <- call (eglChooseConfig display configAttribs 1) ;;
      let '(ok, config, numConfigs) := chosen in
      if (ok =? 0)%Z then
        cerr "Failed to choose EGL config" ;;
        ret (Some (-1)%Z)
      else
        let nativeWindow := 0%Z in
        surface <- call (eglCreateWindowSurface display config nativeWindow None) ;;
        if (surface =? EGL_NO_SURFACE p)%Z then
          cerr "Failed to create EGL surface" ;;
          ret (Some (-1)%Z)
        else
          context <- call (eglCreateContext display config (EGL_NO_CONTEXT p)
                             contextAttribs) ;;
          if (context =? EGL_NO_CONTEXT p)%Z then
            cerr "Failed to create EGL context" ;;
            ret (Some (-1)%Z)
          else
            ok <- call (eglMakeCurrent display surface surface context) ;;
            if (ok =? 0)%Z then
              cerr "Failed to make EGL context current" ;;
              ret (Some (-1)%Z)
            else
              width <- call (eglQuerySurface display surface EGL_WIDTH) ;;
              height <- call (eglQuerySurface display surface EGL_HEIGHT) ;;
              cout ("Surface size: " ++ decimal width ++ "x" ++ decimal height) ;;
              program <- pipeline (VxWorks.createProgram (gl p)
                           VxWorks.vertexShaderSrc VxWorks.fragmentShaderSrc) ;;
              if (program =? 0)%N then
                cerr "Failed to create shader program" ;;
                ret (Some (-1)%Z)
              else
                positionLoc <- call (glGetAttribLocation program "a_position") ;;
                colorLoc <- call (glGetAttribLocation program "a_color") ;;
                call (glViewport 0 0 width height) ;;
                call (glClearColor f1 f1 f1 f1) ;;
                call (glClear GL_COLOR_BUFFER_BIT) ;;
                call (glUseProgram program) ;;
                call (glVertexAttribPointer (to_GLuint positionLoc) 3 GL_FLOAT
                        GL_FALSE 0 (Client vertices)) ;;
                call (glEnableVertexAttribArray (to_GLuint positionLoc)) ;;
                call (glVertexAttribPointer (to_GLuint colorLoc) 3 GL_FLOAT
                        GL_FALSE 0 (Client colors)) ;;
                call (glEnableVertexAttribArray (to_GLuint colorLoc)) ;;
                call (glDrawArrays GL_TRIANGLES 0 3) ;;
                call (glDisableVertexAttribArray (to_GLuint positionLoc)) ;;
                call (glDisableVertexAttribArray (to_GLuint colorLoc)) ;;
                call (eglSwapBuffers display surface) ;;
                cout "Triangle rendered. Press Ctrl+C in host shell to exit..." ;;
                left <- delay_loop fuel ;;
                if left then
                  pipeline (glDeleteProgram (gl p) program) ;;
                  call (eglDestroySurface display surface) ;;
                  call (eglDestroyContext display context) ;;
                  call (eglTerminate display) ;;
                  ret (Some 0%Z)
                else
                  ret None.

(** Lines 218-221. *)
Definition main (fuel : nat) (argc : Z) (argv : list string) : Host p (option Z) :=
  vx_main fuel.

End WithPlatform.
End VxWorksMain.

(** *** Reading a run of a host *)

(** The events of the pipeline, the lines the host itself wrote to
    [std::cerr], and all the lines that reached [std::cerr]. *)
Definition pipeline_events (tr : list host_event) : list event :=
  flat_map (fun e => match e with Pipeline e' => [e'] | _ => [] end) tr.

Definition host_stderr (tr : list host_event) : list string :=
  flat_map (fun e => match e with Stderr t => [t] | _ => [] end) tr.

Definition all_stderr (tr : list host_event) : list string :=
  flat_map (fun e => match e with
                     | Stderr t | Pipeline (EvCerr t) => [t]
                     | _ => []
                     end) tr.

(** The calls of the host that satisfy [q]. *)
Definition called (q : forall R : Type, api R -> bool) (e : host_event) : bool :=
  match e with Called c _ => q _ c | _ => false end.

Definition times (q : forall R : Type, api R -> bool) (tr : list host_event) : nat :=
  List.length (filter (called q) tr).

Definition is_glfwTerminate (R : Type) (c : api R) : bool :=
  match c with glfwTerminate => true | _ => false end.

Definition is_glDrawArrays (R : Type) (c : api R) : bool :=
  match c with glDrawArrays _ _ _ => true | _ => false end.

Definition is_swap (R : Type) (c : api R) : bool :=
  match c with glfwSwapBuffers _ | eglSwapBuffers _ _ => true | _ => false end.

Definition is_glfwPollEvents (R : Type) (c : api R) : bool :=
  match c with glfwPollEvents => true | _ => false end.

Definition is_taskDelay (R : Type) (c : api R) : bool :=
  match c with taskDelay _ => true | _ => false end.

(** The calls that give back what the host holds: the window and GLFW, the
    vertex array and buffer, the EGL surface, context and display. *)
Definition is_release (R : Type) (c : api R) : bool :=
  match c with
  | glfwTerminate | glfwDestroyWindow _
  | glDeleteVertexArrays _ _ | glDeleteBuffers _ _
  | eglDestroySurface _ _ | eglDestroyContext _ _ | eglTerminate _ => true
  | _ => false
  end.

(** The calls that need a current OpenGL context, those of the pipeline
    apart. *)
Definition is_gl_call (R : Type) (c : api R) : bool :=
  match c with
  | glViewport _ _ _ _ | glGenVertexArrays _ | glGenBuffers _
  | glBindVertexArray _ | glBindBuffer _ _ | glBufferData _ _ _ _
  | glVertexAttribPointer _ _ _ _ _ _ | glEnableVertexAttribArray _
  | glDisableVertexAttribArray _ | glClearColor _ _ _ _ | glClear _
  | glUseProgram _ | glDrawArrays _ _ _ | glDeleteVertexArrays _ _
  | glDeleteBuffers _ _ | glGetAttribLocation _ _ => true
  | _ => false
  end.

(** The programs given to [glUseProgram], the attribute arrays enabled and
    those disabled, the vertices asked of [glDrawArrays] as (first, count),
    and the ticks given to [taskDelay], each in order. *)
Definition used_programs (tr : list host_event) : list GLuint :=
  flat_map (fun e => match e with
                     | Called c _ => match c with glUseProgram h => [h] | _ => [] end
                     | _ => []
                     end) tr.

Definition enabled_arrays (tr : list host_event) : list GLuint :=
  flat_map (fun e => match e with
                     | Called c _ =>
                         match c with glEnableVertexAttribArray i => [i] | _ => [] end
                     | _ => []
                     end) tr.

Definition disabled_arrays (tr : list host_event) : list GLuint :=
  flat_map (fun e => match e with
                     | Called c _ =>
                         match c with glDisableVertexAttribArray i => [i] | _ => [] end
                     | _ => []
                     end) tr.

Definition drawn (tr : list host_event) : list (Z * Z) :=
  flat_map (fun e => match e with
                     | Called c _ =>
                         match c with glDrawArrays _ first n => [(first, n)] | _ => [] end
                     | _ => []
                     end) tr.

Definition delays (tr : list host_event) : list Z :=
  flat_map (fun e => match e with
                     | Called c _ => match c with taskDelay t => [t] | _ => [] end
                     | _ => []
                     end) tr.

(** The answers of [glfwWindowShouldClose], of [glfwGetKey] and of
    [glGetAttribLocation], in order. *)
Definition close_answers (tr : list host_event) : list Z :=
  flat_map (fun e => match e with
                     | Called c r =>
                         match c in api R return R -> list Z with
                         | glfwWindowShouldClose _ => fun r => [r]
                         | _ => fun _ => []
                         end r
                     | _ => []
                     end) tr.

Definition key_answers (tr : list host_event) : list Z :=
  flat_map (fun e => match e with
                     | Called c r =>
                         match c in api R return R -> list Z with
                         | glfwGetKey _ _ => fun r => [r]
                         | _ => fun _ => []
                         end r
                     | _ => []
                     end) tr.

Definition attribute_locations (tr : list host_event) : list GLint :=
  flat_map (fun e => match e with
                     | Called c r =>
                         match c in api R return R -> list GLint with
                         | glGetAttribLocation _ _ => fun r => [r]
                         | _ => fun _ => []
                         end r
                     | _ => []
                     end) tr.

(** The windows asked to close by [glfwSetWindowShouldClose], with the
    value given. *)
Definition close_requests (tr : list host_event) : list (Z * Z) :=
  flat_map (fun e => match e with
                     | Called c _ =>
                         match c with
                         | glfwSetWindowShouldClose w v => [(w, v)]
                         | _ => []
                         end
                     | _ => []
                     end) tr.

(** The windows [glfwCreateWindow] answered, and the windows the calls
    that take a window were given, each in order. *)
Definition created_windows (tr : list host_event) : list Z :=
  flat_map (fun e => match e with
                     | Called c r =>
                         match c in api R return R -> list Z with
                         | glfwCreateWindow _ _ _ _ _ => fun r => [r]
                         | _ => fun _ => []
                         end r
                     | _ => []
                     end) tr.

Definition windows_used (tr : list host_event) : list Z :=
  flat_map (fun e => match e with
                     | Called c _ =>
                         match c with
                         | glfwMakeContextCurrent w
                         | glfwSetFramebufferSizeCallback w _
                         | glfwWindowShouldClose w | glfwGetKey w _
                         | glfwSetWindowShouldClose w _ | glfwSwapBuffers w
                         | glfwDestroyWindow w => [w]
                         | _ => []
                         end
                     | _ => []
                     end) tr.

(** *** A small platform to run the hosts on *)

Module ToyPlatform.

(** A driver with something more in its state. *)
Definition with_extra (d : Driver) (X : Type) : Driver := {|
  gl_state := gl_state d * X;
  drvCreateShader := fun s type =>
    (fst (drvCreateShader d (fst s) type),
     (snd (drvCreateShader d (fst s) type), snd s));
  drvShaderSource := fun s h src => (drvShaderSource d (fst s) h src, snd s);
  drvCompileShader := fun s h => (drvCompileShader d (fst s) h, snd s);
  drvGetShaderiv := fun s h pname => drvGetShaderiv d (fst s) h pname;
  drvGetShaderInfoLog := fun s h => drvGetShaderInfoLog d (fst s) h;
  drvDeleteShader := fun s h => (drvDeleteShader d (fst s) h, snd s);
  drvCreateProgram := fun s =>
    (fst (drvCreateProgram d (fst s)), (snd (drvCreateProgram d (fst s)), snd s));
  drvAttachShader := fun s pr h => (drvAttachShader d (fst s) pr h, snd s);
  drvLinkProgram := fun s pr => (drvLinkProgram d (fst s) pr, snd s);
  drvGetProgramiv := fun s pr pname => drvGetProgramiv d (fst s) pr pname;
  drvGetProgramInfoLog := fun s pr => drvGetProgramInfoLog d (fst s) pr;
  drvDeleteProgram := fun s pr => (drvDeleteProgram d (fst s) pr, snd s)
|}.

Section ToyPlatform.

(** The compiler and linker of the toy driver; what [glfwInit],
    [glfwCreateWindow] and [glewInit] answer; the location of every
    attribute.  The state holds besides the number of passes of the render
    loop left before the window asks to close; the Escape key is down
    during the last of them. *)
Variable compiler : string -> option string.
Variable linker : option string.
Variable init_answer window_answer glew_answer : Z.
Variable location : GLint.

Definition toy_driver : Driver := with_extra (Toy.driver compiler linker) nat.

Definition toy_respond (R : Type) (s : gl_state toy_driver) (c : api R)
  : R * gl_state toy_driver :=
  match c in api R return R * gl_state toy_driver with
  | glfwInit => (init_answer, s)
  | glfwWindowHint _ _ => (tt, s)
  | glfwCreateWindow _ _ _ _ _ => (window_answer, s)
  | glfwTerminate => (tt, s)
  | glfwMakeContextCurrent _ => (tt, s)
  | glfwSetFramebufferSizeCallback _ _ => (tt, s)
  | glfwWindowShouldClose _ => (match snd s with O => 1%Z | S _ => 0%Z end, s)
  | glfwGetKey _ _ => (match snd s with 1 => 1%Z | _ => 0%Z end, s)
  | glfwSetWindowShouldClose _ _ => (tt, s)
  | glfwSwapBuffers _ => (tt, s)
  | glfwPollEvents => (tt, (fst s, Nat.pred (snd s)))
  | glfwDestroyWindow _ => (tt, s)
  | set_glewExperimental _ => (tt, s)
  | glewInit => (glew_answer, s)
  | glViewport _ _ _ _ => (tt, s)
  | glGenVertexArrays _ => (1%N, s)
  | glGenBuffers _ => (1%N, s)
  | glBindVertexArray _ => (tt, s)
  | glBindBuffer _ _ => (tt, s)
  | glBufferData _ _ _ _ => (tt, s)
  | glVertexAttribPointer _ _ _ _ _ _ => (tt, s)
  | glEnableVertexAttribArray _ => (tt, s)
  | glDisableVertexAttribArray _ => (tt, s)
  | glClearColor _ _ _ _ => (tt, s)
  | glClear _ => (tt, s)
  | glUseProgram _ => (tt, s)
  | glDrawArrays _ _ _ => (tt, s)
  | glDeleteVertexArrays _ _ => (tt, s)
  | glDeleteBuffers _ _ => (tt, s)
  | glGetAttribLocation _ _ => (location, s)
  | eglGetDisplay _ => (1%Z, s)
  | eglInitialize _ => ((1, 1, 4)%Z, s)
  | eglChooseConfig _ _ _ => ((1, 7, 1)%Z, s)
  | eglCreateWindowSurface _ _ _ _ => (2%Z, s)
  | eglCreateContext _ _ _ _ => (3%Z, s)
  | eglMakeCurrent _ _ _ _ => (1%Z, s)
  | eglQuerySurface _ _ attribute =>
      (match attribute with EGL_WIDTH => 1024%Z | _ => 768%Z end, s)
  | eglSwapBuffers _ _ => (tt, s)
  | eglDestroySurface _ _ => (tt, s)
  | eglDestroyContext _ _ => (tt, s)
  | eglTerminate _ => (tt, s)
  | taskDelay _ => (tt, s)
  end.

(** The values of glew.h, glfw3.h and egl.h, and a [float] of four bytes. *)
Definition platform : Platform := {|
  gl := toy_driver;
  respond := toy_respond;
  APPLE := false;
  GLEW_OK := 0;
  GLFW_PRESS := 1;
  EGL_NO_DISPLAY := 0;
  EGL_NO_SURFACE := 0;
  EGL_NO_CONTEXT := 0;
  sizeof_float := 4
|}.

End ToyPlatform.

(** Where a run starts: nothing created, [frames] passes before the window
    asks to close. *)
Definition start (frames : nat) : Toy.state * nat := (Toy.init, frames).

(** A platform on which everything succeeds; one where [glfwInit] fails; one
    whose linker rejects every program; one that knows no attribute. *)
Definition working : Platform := platform Toy.glsl None 1 4096 0 0.
Definition no_glfw : Platform := platform Toy.glsl None 0 4096 0 0.
Definition no_linker : Platform :=
  platform Toy.glsl (Some "error: v_color not written") 1 4096 0 0.
Definition no_attribute : Platform := platform Toy.glsl None 1 4096 0 (-1).

End ToyPlatform.

(** ** Working with runs *)

Lemma truncate_length (n : nat) (s : string) :
  String.length (truncate n s) = Nat.min n (String.length s).
Proof.
  revert s; induction n as [|n IH]; intros [|c s]; simpl; auto.
Qed.

Lemma truncate_short (n : nat) (s : string) :
  String.length s <= n -> truncate n s = s.
Proof.
  revert s; induction n as [|n IH]; intros [|c s]; simpl; intros H;
    try reflexivity; try lia.
  f_equal; apply IH; lia.
Qed.

Lemma written_log_512 (log : string) :
  String.length (written_log 512 log) <= 511.
Proof.
  unfold written_log; rewrite truncate_length.
  change (Z.to_nat (512 - 1)) with 511; lia.
Qed.

Lemma written_log_fits (bufSize : Z) (log : string) :
  (Z.of_nat (String.length log) < bufSize)%Z -> written_log bufSize log = log.
Proof.
  intros H; unfold written_log; apply truncate_short; lia.
Qed.

(** *** What each function does, in terms of the driver's answers *)

(** Both sides of a run equation make the same tests in the same order. *)
Ltac run_eq :=
  cbv zeta;
  unfold Desktop.compileShader, VxWorks.loadShader, Desktop.linkProgram,
    VxWorks.linkProgram, stage_status, stage_log_length, stage_log, stage_state,
    stage_handle, link_status, link_log_length, link_log, link_state,
    link_handle, bind, ret, cerr, glCreateShader, glShaderSource,
    glCompileShader, glGetShaderiv, glGetShaderInfoLog, glDeleteShader,
    glCreateProgram, glAttachShader, glLinkProgram, glGetProgramiv,
    glGetProgramInfoLog, glDeleteProgram;
  cbn [fst snd];
  repeat match goal with
         | |- context [if ?c then _ else _] => destruct c; cbn [fst snd]
         end;
  reflexivity.

Section Equations.

Variable drv : Driver.

Lemma compileShader_eq (type : GLenum) (source : string) (s : gl_state drv) :
  Desktop.compileShader drv type source s =
  let h := stage_handle drv s type in
  let s' := stage_state drv s type source in
  let st := stage_status drv s type source in
  let log := written_log 512 (stage_log drv s type source) in
  if (st =? 0)%Z then
    (0%N, drvDeleteShader drv s' h,
     [EvCreateShader type h; EvShaderSource h source; EvCompileShader h;
      EvGetShaderiv h GL_COMPILE_STATUS st; EvGetShaderInfoLog h 512 log;
      EvCerr (Desktop.compile_tag ++ log ++ nl); EvDeleteShader h])
  else
    (h, s',
     [EvCreateShader type h; EvShaderSource h source; EvCompileShader h;
      EvGetShaderiv h GL_COMPILE_STATUS st]).
Proof. run_eq. Qed.

Lemma loadShader_eq (type : GLenum) (source : string) (s : gl_state drv) :
  VxWorks.loadShader drv type source s =
  let h := stage_handle drv s type in
  let s' := stage_state drv s type source in
  let st := stage_status drv s type source in
  let len := stage_log_length drv s type source in
  let log := written_log len (stage_log drv s type source) in
  if (st =? 0)%Z then
    (0%N, drvDeleteShader drv s' h,
     [EvCreateShader type h; EvShaderSource h source; EvCompileShader h;
      EvGetShaderiv h GL_COMPILE_STATUS st;
      EvGetShaderiv h GL_INFO_LOG_LENGTH len] ++
     (if (1 <? len)%Z
      then [EvGetShaderInfoLog h len log;
            EvCerr (VxWorks.compile_tag ++ log ++ nl)]
      else []) ++
     [EvDeleteShader h])
  else
    (h, s',
     [EvCreateShader type h; EvShaderSource h source; EvCompileShader h;
      EvGetShaderiv h GL_COMPILE_STATUS st]).
Proof. run_eq. Qed.

Lemma Desktop_linkProgram_eq (vs fs : GLuint) (s : gl_state drv) :
  Desktop.linkProgram drv vs fs s =
  let p := link_handle drv s in
  let s' := link_state drv s vs fs in
  let st := link_status drv s vs fs in
  let log := written_log 512 (link_log drv s vs fs) in
  if (vs =? 0)%N || (fs =? 0)%N then (0%N, s, [])
  else if (st =? 0)%Z then
    (0%N, drvDeleteShader drv (drvDeleteShader drv (drvDeleteProgram drv s' p) vs) fs,
     [EvCreateProgram p; EvAttachShader p vs; EvAttachShader p fs;
      EvLinkProgram p; EvGetProgramiv p GL_LINK_STATUS st;
      EvGetProgramInfoLog p 512 log; EvCerr (Desktop.link_tag ++ log ++ nl);
      EvDeleteProgram p; EvDeleteShader vs; EvDeleteShader fs])
  else
    (p, drvDeleteShader drv (drvDeleteShader drv s' vs) fs,
     [EvCreateProgram p; EvAttachShader p vs; EvAttachShader p fs;
      EvLinkProgram p; EvGetProgramiv p GL_LINK_STATUS st;
      EvDeleteShader vs; EvDeleteShader fs]).
Proof. run_eq. Qed.

Lemma VxWorks_linkProgram_eq (vs fs : GLuint) (s : gl_state drv) :
  VxWorks.linkProgram drv vs fs s =
  let p := link_handle drv s in
  let s' := link_state drv s vs fs in
  let st := link_status drv s vs fs in
  let len := link_log_length drv s vs fs in
  let log := written_log len (link_log drv s vs fs) in
  if (vs =? 0)%N || (fs =? 0)%N then (0%N, s, [])
  else if (st =? 0)%Z then
    (0%N, drvDeleteProgram drv s' p,
     [EvCreateProgram p; EvAttachShader p vs; EvAttachShader p fs;
      EvLinkProgram p; EvGetProgramiv p GL_LINK_STATUS st;
      EvGetProgramiv p GL_INFO_LOG_LENGTH len] ++
     (if (1 <? len)%Z
      then [EvGetProgramInfoLog p len log;
            EvCerr (VxWorks.link_tag ++ log ++ nl)]
      else []) ++
     [EvDeleteProgram p])
  else
    (p, drvDeleteShader drv (drvDeleteShader drv s' vs) fs,
     [EvCreateProgram p; EvAttachShader p vs; EvAttachShader p fs;
      EvLinkProgram p; EvGetProgramiv p GL_LINK_STATUS st;
      EvDeleteShader vs; EvDeleteShader fs]).
Proof. run_eq. Qed.

End Equations.

(** Splits on the next test the run makes. *)
Ltac next_test :=
  match goal with
  | |- context [if ?c then _ else _] =>
      lazymatch c with
      | context [if _ then _ else _] => fail
      | _ => let E := fresh "E" in destruct c eqn:E
      end
  end.

(** A zero handle does not pass the guard. *)
Ltac guard_passed :=
  repeat match goal with
         | H : _ || _ = false |- _ =>
             apply orb_false_elim in H; destruct H as [? ?]
         | H : (0 =? 0)%N = false |- _ => discriminate H
         end.

(** Takes a build apart into its three steps, case by case. *)
Ltac split_run :=
  cbv zeta;
  unfold Desktop.createShaderProgram, VxWorks.createProgram, bind;
  repeat (first [ rewrite compileShader_eq | rewrite loadShader_eq
                | rewrite Desktop_linkProgram_eq | rewrite VxWorks_linkProgram_eq
                | next_test ];
          cbv zeta; cbn [fst snd app]);
  guard_passed.

(** Evaluates the readings of a run whose events are known: first the
    readings that select by constructor, then, with the outcome of each test
    put in, the ones that select by a test. *)
Ltac read_run :=
  cbn [value final events fst snd app];
  unfold failures, info_lengths, compile_results, link_results, count, commands;
  cbn [shader_answers program_answers cerr_texts created_kinds created_shaders
       deleted_shaders created_programs deleted_programs fetched_logs
       program_logs flat_map map app GLenum_eqb];
  unfold flag;
  repeat match goal with
         | H : (_ =? 0)%Z = _ |- _ => rewrite !H
         | H : (1 <? _)%Z = _ |- _ => rewrite !H
         end;
  cbn [filter map app List.length negb andb is_build_call is_command
       is_deleteShader is_shader_created is_program_call];
  repeat match goal with
         | H : (1 <? _)%Z = _ |- _ => rewrite !H
         end;
  cbn [app List.length].

(** A build is its three steps in a row: the vertex stage, the fragment
    stage from the state the vertex stage left, then the link step on the
    two handles, whatever they are. *)
Lemma createShaderProgram_steps :
  forall (drv : Driver) (s : gl_state drv) (vtxSrc fragSrc : string),
    let r1 := Desktop.compileShader drv GL_VERTEX_SHADER vtxSrc s in
    let r2 := Desktop.compileShader drv GL_FRAGMENT_SHADER fragSrc (final r1) in
    let r3 := Desktop.linkProgram drv (value r1) (value r2) (final r2) in
    Desktop.createShaderProgram drv vtxSrc fragSrc s =
    (value r3, final r3, events r1 ++ events r2 ++ events r3).
Proof.
  intros drv s v f; cbv zeta; unfold Desktop.createShaderProgram, bind.
  destruct (Desktop.compileShader drv GL_VERTEX_SHADER v s) as [[a s1] e1].
  cbn [value final events fst snd].
  destruct (Desktop.compileShader drv GL_FRAGMENT_SHADER f s1) as [[b s2] e2].
  cbn [value final events fst snd].
  destruct (Desktop.linkProgram drv a b s2) as [[c s3] e3]; reflexivity.
Qed.

Lemma createProgram_steps :
  forall (drv : Driver) (s : gl_state drv) (vtxSrc fragSrc : string),
    let r1 := VxWorks.loadShader drv GL_VERTEX_SHADER vtxSrc s in
    let r2 := VxWorks.loadShader drv GL_FRAGMENT_SHADER fragSrc (final r1) in
    let r3 := VxWorks.linkProgram drv (value r1) (value r2) (final r2) in
    VxWorks.createProgram drv vtxSrc fragSrc s =
    (value r3, final r3, events r1 ++ events r2 ++ events r3).
Proof.
  intros drv s v f; cbv zeta; unfold VxWorks.createProgram, bind.
  destruct (VxWorks.loadShader drv GL_VERTEX_SHADER v s) as [[a s1] e1].
  cbn [value final events fst snd].
  destruct (VxWorks.loadShader drv GL_FRAGMENT_SHADER f s1) as [[b s2] e2].
  cbn [value final events fst snd].
  destruct (VxWorks.linkProgram drv a b s2) as [[c s3] e3]; reflexivity.
Qed.

(** *** The repository's own shaders, on a driver that accepts them *)

Example createShaderProgram_success :
  let r := Desktop.createShaderProgram (Toy.driver Toy.glsl None)
             Desktop.vertexShaderSrc Desktop.fragmentShaderSrc Toy.init in
  events r =
    [EvCreateShader GL_VERTEX_SHADER 1; EvShaderSource 1 Desktop.vertexShaderSrc;
     EvCompileShader 1; EvGetShaderiv 1 GL_COMPILE_STATUS 1;
     EvCreateShader GL_FRAGMENT_SHADER 2; EvShaderSource 2 Desktop.fragmentShaderSrc;
     EvCompileShader 2; EvGetShaderiv 2 GL_COMPILE_STATUS 1;
     EvCreateProgram 3; EvAttachShader 3 1; EvAttachShader 3 2; EvLinkProgram 3;
     EvGetProgramiv 3 GL_LINK_STATUS 1; EvDeleteShader 1; EvDeleteShader 2] /\
  value r = 3%N /\
  Toy.live_shaders (final r) = [] /\ Toy.live_programs (final r) = [3%N].
Proof. vm_compute; repeat split. Qed.

Example createProgram_success :
  let r := VxWorks.createProgram (Toy.driver Toy.glsl None)
             VxWorks.vertexShaderSrc VxWorks.fragmentShaderSrc Toy.init in
  events r =
    [EvCreateShader GL_VERTEX_SHADER 1; EvShaderSource 1 VxWorks.vertexShaderSrc;
     EvCompileShader 1; EvGetShaderiv 1 GL_COMPILE_STATUS 1;
     EvCreateShader GL_FRAGMENT_SHADER 2; EvShaderSource 2 VxWorks.fragmentShaderSrc;
     EvCompileShader 2; EvGetShaderiv 2 GL_COMPILE_STATUS 1;
     EvCreateProgram 3; EvAttachShader 3 1; EvAttachShader 3 2; EvLinkProgram 3;
     EvGetProgramiv 3 GL_LINK_STATUS 1; EvDeleteShader 1; EvDeleteShader 2] /\
  value r = 3%N /\
  Toy.live_shaders (final r) = [] /\ Toy.live_programs (final r) = [3%N].
Proof. vm_compute; repeat split. Qed.

(** A build that returns a program has deleted the two shaders it created. *)
Lemma successful_build_deletes_shaders :
  forall (drv : Driver) (s : gl_state drv) (vtxSrc fragSrc : string),
    let rd := Desktop.createShaderProgram drv vtxSrc fragSrc s in
    let rv := VxWorks.createProgram drv vtxSrc fragSrc s in
    (value rd <> 0%N -> deleted_shaders (events rd) = created_shaders (events rd)) /\
    (value rv <> 0%N -> deleted_shaders (events rv) = created_shaders (events rv)).
Proof.
  intros drv s v f; split; split_run; read_run; intros R;
    try reflexivity; exfalso; apply R; reflexivity.
Qed.

(** The run of a build that went well is that of a whole program. *)
Lemma whole_program :
  forall (vtxSrc fragSrc : string) (hv hf h : GLuint) (a b c : GLint),
    (a =? 0)%Z = false -> (b =? 0)%Z = false -> (c =? 0)%Z = false ->
    fully_valid
      [EvCreateShader GL_VERTEX_SHADER hv; EvShaderSource hv vtxSrc;
       EvCompileShader hv; EvGetShaderiv hv GL_COMPILE_STATUS a;
       EvCreateShader GL_FRAGMENT_SHADER hf; EvShaderSource hf fragSrc;
       EvCompileShader hf; EvGetShaderiv hf GL_COMPILE_STATUS b;
       EvCreateProgram h; EvAttachShader h hv; EvAttachShader h hf;
       EvLinkProgram h; EvGetProgramiv h GL_LINK_STATUS c;
       EvDeleteShader hv; EvDeleteShader hf]
      vtxSrc fragSrc h.
Proof.
  intros v f hv hf h a b c Ha Hb Hc.
  assert (Fa : flag a = true) by (unfold flag; rewrite Ha; reflexivity).
  assert (Fb : flag b = true) by (unfold flag; rewrite Hb; reflexivity).
  assert (Fc : flag c = true) by (unfold flag; rewrite Hc; reflexivity).
  split.
  - unfold compile_results, link_results.
    cbn [shader_answers program_answers created_programs deleted_programs
         flat_map map app GLenum_eqb].
    rewrite Fa, Fb, Fc; auto.
  - exists hv, hf,
      [EvCreateShader GL_VERTEX_SHADER hv; EvShaderSource hv v;
       EvCompileShader hv; EvGetShaderiv hv GL_COMPILE_STATUS a],
      [EvCreateShader GL_FRAGMENT_SHADER hf; EvShaderSource hf f;
       EvCompileShader hf; EvGetShaderiv hf GL_COMPILE_STATUS b],
      [EvCreateProgram h; EvAttachShader h hv; EvAttachShader h hf;
       EvLinkProgram h; EvGetProgramiv h GL_LINK_STATUS c],
      [EvDeleteShader hv; EvDeleteShader hf].
    unfold stage_compiled, program_linked.
    repeat match goal with |- _ /\ _ => split end;
      try reflexivity; eexists; (split; [|reflexivity]); assumption.
Qed.

(** ** The claims *)

(** C7: the handle a build returns is zero or the handle of a whole
    program.  In the second case the run is: the vertex stage created,
    given its source and compiled, its compile status asked and answered
    true; the same for the fragment stage; one program created, the two
    shaders attached to it, the program linked, its link status asked and
    answered true; then only deletions of shaders.  The handle returned is
    the one the driver answered to [glCreateProgram], the statuses are those
    the driver holds for the two shaders and for this program once linked,
    and no program is deleted: a program that was not linked, or whose link
    failed, is never returned. *)
Theorem build_returns_valid_or_zero :
  forall (drv : Driver) (s : gl_state drv) (vtxSrc fragSrc : string),
    let s1 := stage_state drv s GL_VERTEX_SHADER vtxSrc in
    let hv := stage_handle drv s GL_VERTEX_SHADER in
    let hf := stage_handle drv s1 GL_FRAGMENT_SHADER in
    let s2 := stage_state drv s1 GL_FRAGMENT_SHADER fragSrc in
    let rd := Desktop.createShaderProgram drv vtxSrc fragSrc s in
    let rv := VxWorks.createProgram drv vtxSrc fragSrc s in
    (value rd = 0%N \/
     fully_valid (events rd) vtxSrc fragSrc (value rd) /\
     value rd = link_handle drv s2 /\
     attached (events rd) = [(value rd, hv); (value rd, hf)] /\
     stage_status drv s GL_VERTEX_SHADER vtxSrc <> 0%Z /\
     stage_status drv s1 GL_FRAGMENT_SHADER fragSrc <> 0%Z /\
     link_status drv s2 hv hf <> 0%Z) /\
    (value rv = 0%N \/
     fully_valid (events rv) vtxSrc fragSrc (value rv) /\
     value rv = link_handle drv s2 /\
     attached (events rv) = [(value rv, hv); (value rv, hf)] /\
     stage_status drv s GL_VERTEX_SHADER vtxSrc <> 0%Z /\
     stage_status drv s1 GL_FRAGMENT_SHADER fragSrc <> 0%Z /\
     link_status drv s2 hv hf <> 0%Z).
Proof.
  intros drv s v f; split; split_run; read_run;
    try (left; reflexivity); right;
    (split; [apply whole_program; assumption|]);
    cbn [attached flat_map app];
    repeat match goal with
           | H : (_ =? 0)%Z = false |- _ => apply Z.eqb_neq in H
           end;
    repeat split; assumption.
Qed.

(** C3: with a zero handle on either side the link step returns zero at
    once: it makes no call at all, so no [glCreateProgram], no
    [glAttachShader] and no [glLinkProgram], and the driver state is as it
    was. *)
Theorem linkProgram_guard :
  forall (drv : Driver) (s : gl_state drv) (vs fs : GLuint),
    vs = 0%N \/ fs = 0%N ->
    Desktop.linkProgram drv vs fs s = (0%N, s, []) /\
    VxWorks.linkProgram drv vs fs s = (0%N, s, []).
Proof.
  intros drv s vs fs H.
  assert (G : (vs =? 0)%N || (fs =? 0)%N = true).
  { destruct H as [-> | ->]; [reflexivity | apply orb_true_r]. }
  unfold Desktop.linkProgram, VxWorks.linkProgram; rewrite G; auto.
Qed.

Lemma linkProgram_guard_witness :
  Desktop.linkProgram (Toy.driver Toy.glsl None) 0%N 2%N Toy.init = (0%N, Toy.init, []) /\
  VxWorks.linkProgram (Toy.driver Toy.glsl None) 0%N 2%N Toy.init = (0%N, Toy.init, []).
Proof.
  apply (linkProgram_guard (Toy.driver Toy.glsl None) Toy.init 0%N 2%N).
  left; reflexivity.
Defined.

(** C5, as the code has it: when the compile status is false, both copies
    delete the shader they created and return zero; [compileShader] fetches
    the log into its 512-byte buffer and writes it after its tag;
    [loadShader] fetches and writes the log only when the log length the
    driver reports is greater than 1. *)
Theorem compile_failure_handling :
  forall (drv : Driver) (s : gl_state drv) (type : GLenum) (source : string),
    let h := stage_handle drv s type in
    let len := stage_log_length drv s type source in
    let log := stage_log drv s type source in
    let rd := Desktop.compileShader drv type source s in
    let rv := VxWorks.loadShader drv type source s in
    stage_status drv s type source = 0%Z ->
    (value rd = 0%N /\
     fetched_logs (events rd) = [written_log 512 log] /\
     cerr_texts (events rd) = [Desktop.compile_tag ++ written_log 512 log ++ nl]%string /\
     created_shaders (events rd) = [h] /\ deleted_shaders (events rd) = [h]) /\
    (value rv = 0%N /\
     fetched_logs (events rv) =
       (if (1 <? len)%Z then [written_log len log] else []) /\
     cerr_texts (events rv) =
       (if (1 <? len)%Z
        then [VxWorks.compile_tag ++ written_log len log ++ nl]%string else []) /\
     created_shaders (events rv) = [h] /\ deleted_shaders (events rv) = [h]).
Proof.
  intros drv s type source h len log rd rv H; subst h len log rd rv.
  rewrite compileShader_eq, loadShader_eq; cbv zeta; rewrite H.
  change (0 =? 0)%Z with true; cbv iota.
  split; [read_run; auto|].
  destruct (1 <? stage_log_length drv s type source)%Z; read_run; auto.
Qed.

Lemma compile_failure_handling_witness :
  let drv := Toy.driver Toy.glsl None in
  cerr_texts (events (Desktop.compileShader drv GL_FRAGMENT_SHADER Toy.broken Toy.init)) =
    [Desktop.compile_tag ++ "0:1(1): error: no entry point" ++ nl]%string /\
  cerr_texts (events (VxWorks.loadShader drv GL_FRAGMENT_SHADER Toy.broken Toy.init)) =
    [VxWorks.compile_tag ++ "0:1(1): error: no entry point" ++ nl]%string.
Proof.
  destruct (compile_failure_handling (Toy.driver Toy.glsl None) Toy.init
              GL_FRAGMENT_SHADER Toy.broken eq_refl)
    as [[_ [_ [Hd _]]] [_ [_ [Hv _]]]].
  split; [exact Hd | exact Hv].
Defined.

(** C5, as stated, fails: a driver that reports a failed compile with an
    empty log makes [loadShader] delete the shader and return zero without
    fetching a log or writing anything to [std::cerr]. *)
Lemma loadShader_silent_on_empty_log :
  let r := VxWorks.loadShader (Toy.driver Toy.terse None)
             GL_FRAGMENT_SHADER Toy.broken Toy.init in
  events r =
    [EvCreateShader GL_FRAGMENT_SHADER 1; EvShaderSource 1 Toy.broken;
     EvCompileShader 1; EvGetShaderiv 1 GL_COMPILE_STATUS 0;
     EvGetShaderiv 1 GL_INFO_LOG_LENGTH 0; EvDeleteShader 1] /\
  value r = 0%N /\
  compile_results (events r) = [false] /\
  fetched_logs (events r) = [] /\
  cerr_texts (events r) = [].
Proof. vm_compute; repeat split. Qed.

(** C9, as the code has it: the 512-byte bound is that of src/main.cpp.
    There a failed compile or link writes, after its tag, the first 511
    characters of the driver's log (the buffer also holds the terminator)
    and nothing else, so a longer log loses its tail without a mark.
    src/main_vxworks.cpp sizes its buffer from the length the driver reports
    and writes all but one of that many characters. *)
Theorem diagnostic_text_bounds :
  forall (drv : Driver) (s : gl_state drv) (type : GLenum) (source : string)
         (vs fs : GLuint),
    (cerr_texts (events (Desktop.compileShader drv type source s)) =
       if (stage_status drv s type source =? 0)%Z
       then [Desktop.compile_tag ++ truncate 511 (stage_log drv s type source) ++ nl]%string
       else []) /\
    (cerr_texts (events (Desktop.linkProgram drv vs fs s)) =
       if (vs =? 0)%N || (fs =? 0)%N then []
       else if (link_status drv s vs fs =? 0)%Z
       then [Desktop.link_tag ++ truncate 511 (link_log drv s vs fs) ++ nl]%string
       else []) /\
    (cerr_texts (events (VxWorks.loadShader drv type source s)) =
       let len := stage_log_length drv s type source in
       if (stage_status drv s type source =? 0)%Z && (1 <? len)%Z
       then [VxWorks.compile_tag ++
             truncate (Z.to_nat (len - 1)) (stage_log drv s type source) ++ nl]%string
       else []) /\
    (cerr_texts (events (VxWorks.linkProgram drv vs fs s)) =
       let len := link_log_length drv s vs fs in
       if (vs =? 0)%N || (fs =? 0)%N then []
       else if (link_status drv s vs fs =? 0)%Z && (1 <? len)%Z
       then [VxWorks.link_tag ++
             truncate (Z.to_nat (len - 1)) (link_log drv s vs fs) ++ nl]%string
       else []) /\
    Forall (fun l => String.length l <= 511)
      (fetched_logs (events (Desktop.compileShader drv type source s)) ++
       fetched_logs (events (Desktop.linkProgram drv vs fs s))).
Proof.
  intros drv s type source vs fs.
  rewrite compileShader_eq, loadShader_eq, Desktop_linkProgram_eq,
    VxWorks_linkProgram_eq; cbv zeta.
  destruct (stage_status drv s type source =? 0)%Z,
    (1 <? stage_log_length drv s type source)%Z,
    ((vs =? 0)%N || (fs =? 0)%N),
    (link_status drv s vs fs =? 0)%Z,
    (1 <? link_log_length drv s vs fs)%Z;
    read_run; cbn [andb]; repeat split;
    repeat (constructor; try apply written_log_512).
Qed.

(** C9, as stated, fails: with a log of 600 characters, and a driver that
    reports its length, [loadShader] writes all 600 of them. *)
Lemma loadShader_writes_long_log :
  let r := VxWorks.loadShader (Toy.driver (Toy.verbose 600) None)
             GL_VERTEX_SHADER Toy.broken Toy.init in
  shader_answers GL_INFO_LOG_LENGTH (events r) = [601%Z] /\
  map String.length (fetched_logs (events r)) = [600] /\
  map String.length (cerr_texts (events r)) =
    [String.length VxWorks.compile_tag + 600 + 1].
Proof. vm_compute; repeat split. Qed.

(** C6, as the code has it: a build always returns, and returns zero when a
    compile or a link failed.  src/main.cpp writes one diagnostic per
    failure.  src/main_vxworks.cpp asks the driver for the log length at
    each failure and writes a diagnostic for those whose length is greater
    than 1. *)
Theorem failure_reporting :
  forall (drv : Driver) (s : gl_state drv) (vtxSrc fragSrc : string),
    let rd := Desktop.createShaderProgram drv vtxSrc fragSrc s in
    let rv := VxWorks.createProgram drv vtxSrc fragSrc s in
    (List.length (cerr_texts (events rd)) = failures (events rd) /\
     (failures (events rd) = 0 \/ value rd = 0%N)) /\
    (List.length (info_lengths (events rv)) = failures (events rv) /\
     List.length (cerr_texts (events rv)) =
       List.length (filter (Z.ltb 1) (info_lengths (events rv))) /\
     (failures (events rv) = 0 \/ value rv = 0%N)).
Proof.
  intros drv s v f; split; split_run; read_run; auto.
Qed.

(** C6, as stated, fails: the vertex stage fails with an empty log, the
    build of src/main_vxworks.cpp returns zero and has written nothing. *)
Lemma createProgram_unreported_failure :
  let r := VxWorks.createProgram (Toy.driver Toy.terse None)
             Toy.broken VxWorks.fragmentShaderSrc Toy.init in
  compile_results (events r) = [false; true] /\
  failures (events r) = 1 /\
  cerr_texts (events r) = [] /\
  value r = 0%N.
Proof. vm_compute; repeat split. Qed.

(** C10, as the code has it: a build compiles the vertex stage and then the
    fragment stage, whatever the vertex stage returned, before it reaches
    the guard of the link step.  When both fail the build returns zero and
    makes no program call; src/main.cpp has then written two diagnostics,
    src/main_vxworks.cpp one for each stage whose reported log length is
    greater than 1. *)
Theorem both_stages_compiled_before_guard :
  forall (drv : Driver) (s : gl_state drv) (vtxSrc fragSrc : string),
    let rd := Desktop.createShaderProgram drv vtxSrc fragSrc s in
    let d1 := Desktop.compileShader drv GL_VERTEX_SHADER vtxSrc s in
    let d2 := Desktop.compileShader drv GL_FRAGMENT_SHADER fragSrc (final d1) in
    let d3 := Desktop.linkProgram drv (value d1) (value d2) (final d2) in
    let rv := VxWorks.createProgram drv vtxSrc fragSrc s in
    let v1 := VxWorks.loadShader drv GL_VERTEX_SHADER vtxSrc s in
    let v2 := VxWorks.loadShader drv GL_FRAGMENT_SHADER fragSrc (final v1) in
    let v3 := VxWorks.linkProgram drv (value v1) (value v2) (final v2) in
    (events rd = events d1 ++ events d2 ++ events d3 /\
     created_kinds (events rd) = [GL_VERTEX_SHADER; GL_FRAGMENT_SHADER] /\
     List.length (compile_results (events rd)) = 2 /\
     (compile_results (events rd) = [false; false] ->
      List.length (cerr_texts (events rd)) = 2 /\
      count is_program_call (events rd) = 0 /\ value rd = 0%N)) /\
    (events rv = events v1 ++ events v2 ++ events v3 /\
     created_kinds (events rv) = [GL_VERTEX_SHADER; GL_FRAGMENT_SHADER] /\
     List.length (compile_results (events rv)) = 2 /\
     (compile_results (events rv) = [false; false] ->
      List.length (cerr_texts (events rv)) =
        List.length (filter (Z.ltb 1) (shader_answers GL_INFO_LOG_LENGTH (events rv))) /\
      List.length (shader_answers GL_INFO_LOG_LENGTH (events rv)) = 2 /\
      count is_program_call (events rv) = 0 /\ value rv = 0%N)).
Proof.
  intros drv s v f; cbv zeta; split;
    (split; [rewrite ?createShaderProgram_steps, ?createProgram_steps; reflexivity|]);
    split_run; read_run;
    (split; [reflexivity | split; [reflexivity | intros R; try discriminate R]]);
    auto.
Qed.

Lemma both_stages_compiled_before_guard_witness :
  let drv := Toy.driver Toy.glsl None in
  List.length (cerr_texts (events
    (Desktop.createShaderProgram drv Toy.broken Toy.broken Toy.init))) = 2 /\
  value (VxWorks.createProgram drv Toy.broken Toy.broken Toy.init) = 0%N.
Proof.
  destruct (both_stages_compiled_before_guard (Toy.driver Toy.glsl None)
              Toy.init Toy.broken Toy.broken) as [[_ [_ [_ Hd]]] [_ [_ [_ Hv]]]].
  split.
  - exact (proj1 (Hd eq_refl)).
  - exact (proj2 (proj2 (proj2 (Hv eq_refl)))).
Defined.

(** C10, as stated, fails: both stages fail with empty logs and the build
    of src/main_vxworks.cpp writes no diagnostic. *)
Lemma createProgram_two_silent_failures :
  let r := VxWorks.createProgram (Toy.driver Toy.terse None)
             Toy.broken Toy.broken Toy.init in
  created_kinds (events r) = [GL_VERTEX_SHADER; GL_FRAGMENT_SHADER] /\
  compile_results (events r) = [false; false] /\
  cerr_texts (events r) = [] /\
  value r = 0%N.
Proof. vm_compute; repeat split. Qed.

(** C2, as the code has it: when the vertex stage compiles and the fragment
    stage does not, the build makes no program call and returns zero, and
    the fragment shader is deleted.  src/main.cpp has written exactly one
    diagnostic, the fragment stage's log after the compile tag;
    src/main_vxworks.cpp has written that one diagnostic when the reported
    log length is greater than 1 and none otherwise. *)
Theorem fragment_failure_after_vertex_success :
  forall (drv : Driver) (s : gl_state drv) (vtxSrc fragSrc : string),
    let s1 := stage_state drv s GL_VERTEX_SHADER vtxSrc in
    let h := stage_handle drv s1 GL_FRAGMENT_SHADER in
    let len := stage_log_length drv s1 GL_FRAGMENT_SHADER fragSrc in
    let log := stage_log drv s1 GL_FRAGMENT_SHADER fragSrc in
    let rd := Desktop.createShaderProgram drv vtxSrc fragSrc s in
    let rv := VxWorks.createProgram drv vtxSrc fragSrc s in
    (compile_results (events rd) = [true; false] ->
     cerr_texts (events rd) = [Desktop.compile_tag ++ written_log 512 log ++ nl]%string /\
     count is_program_call (events rd) = 0 /\ value rd = 0%N /\
     In h (deleted_shaders (events rd))) /\
    (compile_results (events rv) = [true; false] ->
     cerr_texts (events rv) =
       (if (1 <? len)%Z
        then [VxWorks.compile_tag ++ written_log len log ++ nl]%string else []) /\
     count is_program_call (events rv) = 0 /\ value rv = 0%N /\
     In h (deleted_shaders (events rv))).
Proof.
  intros drv s v f; split; split_run; read_run; intros R; try discriminate R;
    repeat split; cbn [In]; auto.
Qed.

Lemma fragment_failure_after_vertex_success_witness :
  let drv := Toy.driver Toy.glsl None in
  cerr_texts (events
    (Desktop.createShaderProgram drv Desktop.vertexShaderSrc Toy.broken Toy.init)) =
    [Desktop.compile_tag ++ "0:1(1): error: no entry point" ++ nl]%string /\
  cerr_texts (events
    (VxWorks.createProgram drv VxWorks.vertexShaderSrc Toy.broken Toy.init)) =
    [VxWorks.compile_tag ++ "0:1(1): error: no entry point" ++ nl]%string.
Proof.
  split.
  - exact (proj1 (proj1 (fragment_failure_after_vertex_success
                           (Toy.driver Toy.glsl None) Toy.init
                           Desktop.vertexShaderSrc Toy.broken) eq_refl)).
  - exact (proj1 (proj2 (fragment_failure_after_vertex_success
                           (Toy.driver Toy.glsl None) Toy.init
                           VxWorks.vertexShaderSrc Toy.broken) eq_refl)).
Defined.

(** C2, as stated, fails: the fragment stage fails with an empty log; the
    build of src/main_vxworks.cpp writes no diagnostic, and the vertex
    shader, handle 1, is not among the shaders it deletes. *)
Lemma createProgram_fragment_failure_run :
  let r := VxWorks.createProgram (Toy.driver Toy.terse None)
             VxWorks.vertexShaderSrc Toy.broken Toy.init in
  compile_results (events r) = [true; false] /\
  cerr_texts (events r) = [] /\
  created_shaders (events r) = [1%N; 2%N] /\
  deleted_shaders (events r) = [2%N] /\
  Toy.live_shaders (final r) = [1%N].
Proof. vm_compute; repeat split. Qed.

(** C4, as the code has it: when both stages compile and the link status is
    false, both copies delete the program object they created and return
    zero.  src/main.cpp writes the link log after its linking tag and
    deletes both shaders.  src/main_vxworks.cpp writes the link log after
    its linking tag when the reported log length is greater than 1, and
    nothing otherwise.  The link log is the info log the driver holds for
    the program the build created, once the two shaders are attached and
    the program linked: it is fetched from that program with
    [glGetProgramInfoLog], into 512 bytes by src/main.cpp and into as many
    bytes as the driver reports by src/main_vxworks.cpp, and the line
    written is the tag, the text fetched and a line feed. *)
Theorem link_failure_handling :
  forall (drv : Driver) (s : gl_state drv) (vtxSrc fragSrc : string),
    let s1 := stage_state drv s GL_VERTEX_SHADER vtxSrc in
    let hv := stage_handle drv s GL_VERTEX_SHADER in
    let hf := stage_handle drv s1 GL_FRAGMENT_SHADER in
    let s2 := stage_state drv s1 GL_FRAGMENT_SHADER fragSrc in
    let p := link_handle drv s2 in
    let len := link_log_length drv s2 hv hf in
    let log := link_log drv s2 hv hf in
    let rd := Desktop.createShaderProgram drv vtxSrc fragSrc s in
    let rv := VxWorks.createProgram drv vtxSrc fragSrc s in
    (link_results (events rd) = [false] ->
     compile_results (events rd) = [true; true] /\
     value rd = 0%N /\
     List.length (created_programs (events rd)) = 1 /\
     deleted_programs (events rd) = created_programs (events rd) /\
     List.length (created_shaders (events rd)) = 2 /\
     deleted_shaders (events rd) = created_shaders (events rd) /\
     List.length (fetched_logs (events rd)) = 1 /\
     cerr_texts (events rd) =
       map (fun l => Desktop.link_tag ++ l ++ nl)%string (fetched_logs (events rd)) /\
     link_status drv s2 hv hf = 0%Z /\
     created_programs (events rd) = [p] /\
     created_shaders (events rd) = [hv; hf] /\
     program_logs (events rd) = [(p, written_log 512 log)] /\
     fetched_logs (events rd) = [written_log 512 log] /\
     cerr_texts (events rd) =
       [Desktop.link_tag ++ written_log 512 log ++ nl]%string) /\
    (link_results (events rv) = [false] ->
     compile_results (events rv) = [true; true] /\
     value rv = 0%N /\
     List.length (created_programs (events rv)) = 1 /\
     deleted_programs (events rv) = created_programs (events rv) /\
     List.length (program_answers GL_INFO_LOG_LENGTH (events rv)) = 1 /\
     List.length (fetched_logs (events rv)) =
       List.length (filter (Z.ltb 1) (program_answers GL_INFO_LOG_LENGTH (events rv))) /\
     cerr_texts (events rv) =
       map (fun l => VxWorks.link_tag ++ l ++ nl)%string (fetched_logs (events rv)) /\
     link_status drv s2 hv hf = 0%Z /\
     created_programs (events rv) = [p] /\
     program_answers GL_INFO_LOG_LENGTH (events rv) = [len] /\
     program_logs (events rv) =
       (if (1 <? len)%Z then [(p, written_log len log)] else []) /\
     fetched_logs (events rv) =
       (if (1 <? len)%Z then [written_log len log] else []) /\
     cerr_texts (events rv) =
       (if (1 <? len)%Z
        then [VxWorks.link_tag ++ written_log len log ++ nl]%string else [])).
Proof.
  intros drv s v f; split; split_run; read_run; intros R; try discriminate R;
    repeat match goal with
           | H : (_ =? 0)%Z = true |- _ => apply Z.eqb_eq in H
           end;
    repeat split; assumption.
Qed.

Lemma link_failure_handling_witness :
  let drv := Toy.driver Toy.glsl (Some "error: v_color not written") in
  cerr_texts (events
    (Desktop.createShaderProgram drv Desktop.vertexShaderSrc
       Desktop.fragmentShaderSrc Toy.init)) =
    [Desktop.link_tag ++ "error: v_color not written" ++ nl]%string /\
  cerr_texts (events
    (VxWorks.createProgram drv VxWorks.vertexShaderSrc
       VxWorks.fragmentShaderSrc Toy.init)) =
    [VxWorks.link_tag ++ "error: v_color not written" ++ nl]%string.
Proof.
  pose (drv := Toy.driver Toy.glsl (Some "error: v_color not written")).
  split.
  - destruct (proj1 (link_failure_handling drv Toy.init Desktop.vertexShaderSrc
                       Desktop.fragmentShaderSrc) eq_refl)
      as (_ & _ & _ & _ & _ & _ & _ & _ & _ & _ & _ & _ & _ & H).
    exact H.
  - destruct (proj2 (link_failure_handling drv Toy.init VxWorks.vertexShaderSrc
                       VxWorks.fragmentShaderSrc) eq_refl)
      as (_ & _ & _ & _ & _ & _ & _ & _ & _ & _ & _ & _ & H).
    exact H.
Defined.

(** C4, as stated, fails: the link fails with an empty log; the build of
    src/main_vxworks.cpp deletes the program and returns zero, writes no
    diagnostic and deletes neither shader. *)
Lemma createProgram_link_failure_run :
  let r := VxWorks.createProgram (Toy.driver Toy.glsl (Some ""))
             VxWorks.vertexShaderSrc VxWorks.fragmentShaderSrc Toy.init in
  events r =
    [EvCreateShader GL_VERTEX_SHADER 1; EvShaderSource 1 VxWorks.vertexShaderSrc;
     EvCompileShader 1; EvGetShaderiv 1 GL_COMPILE_STATUS 1;
     EvCreateShader GL_FRAGMENT_SHADER 2; EvShaderSource 2 VxWorks.fragmentShaderSrc;
     EvCompileShader 2; EvGetShaderiv 2 GL_COMPILE_STATUS 1;
     EvCreateProgram 3; EvAttachShader 3 1; EvAttachShader 3 2; EvLinkProgram 3;
     EvGetProgramiv 3 GL_LINK_STATUS 0; EvGetProgramiv 3 GL_INFO_LOG_LENGTH 0;
     EvDeleteProgram 3] /\
  link_results (events r) = [false] /\
  cerr_texts (events r) = [] /\
  deleted_shaders (events r) = [] /\
  Toy.live_shaders (final r) = [1%N; 2%N] /\
  value r = 0%N.
Proof. vm_compute; repeat split. Qed.




(** C1, where the code departs from it: with a vertex stage that compiles
    and a fragment stage that does not, both copies return at the guard
    with two shaders created and one deleted, and the vertex shader is left
    alive in the driver; with a link that fails, src/main_vxworks.cpp
    returns with two shaders created and none deleted. *)
Theorem shaders_outlive_failed_build :
  let drv := Toy.driver Toy.glsl None in
  let rd := Desktop.createShaderProgram drv Desktop.vertexShaderSrc
              Toy.broken Toy.init in
  let rv := VxWorks.createProgram drv VxWorks.vertexShaderSrc
              Toy.broken Toy.init in
  let rl := VxWorks.createProgram
              (Toy.driver Toy.glsl (Some "error: v_color not written"))
              VxWorks.vertexShaderSrc VxWorks.fragmentShaderSrc Toy.init in
  (value rd = 0%N /\ count is_shader_created (events rd) = 2 /\
   count is_deleteShader (events rd) = 1 /\
   deleted_shaders (events rd) = [2%N] /\ Toy.live_shaders (final rd) = [1%N]) /\
  (value rv = 0%N /\ count is_shader_created (events rv) = 2 /\
   count is_deleteShader (events rv) = 1 /\
   deleted_shaders (events rv) = [2%N] /\ Toy.live_shaders (final rv) = [1%N]) /\
  (value rl = 0%N /\ count is_shader_created (events rl) = 2 /\
   count is_deleteShader (events rl) = 0 /\
   Toy.live_shaders (final rl) = [1%N; 2%N] /\ Toy.live_programs (final rl) = []).
Proof. vm_compute; repeat split. Qed.

(** ** Further properties of the pipeline *)

Lemma truncate_prefix (n : nat) (s : string) :
  String.prefix (truncate n s) s = true.
Proof.
  revert s; induction n as [|n IH]; intros [|c s]; simpl; auto.
  destruct (ascii_dec c c) as [_|N]; [apply IH | contradiction].
Qed.

Lemma truncate_whole_iff (n : nat) (s : string) :
  truncate n s = s <-> String.length s <= n.
Proof.
  split; [|apply truncate_short].
  intros H; rewrite <- H, truncate_length; apply Nat.le_min_l.
Qed.

(** Evaluates [subseq] on the handles of a run. *)
Ltac read_subseq :=
  repeat (cbn [subseq]; rewrite ?N.eqb_refl;
          try reflexivity;
          try match goal with
              | |- context [if (?a =? ?b)%N then _ else _] => destruct (a =? b)%N
              end).

(** X1: a build whose link succeeds returns the program object the driver
    created for it; it has then deleted the two shaders it created, in the
    order of their creation, deleted no program, fetched no log and written
    nothing to [std::cerr]. *)
Theorem linked_build_returns_program :
  forall (drv : Driver) (s : gl_state drv) (vtxSrc fragSrc : string),
    let rd := Desktop.createShaderProgram drv vtxSrc fragSrc s in
    let rv := VxWorks.createProgram drv vtxSrc fragSrc s in
    (link_results (events rd) = [true] ->
     compile_results (events rd) = [true; true] /\
     created_programs (events rd) = [value rd] /\
     deleted_programs (events rd) = [] /\
     List.length (created_shaders (events rd)) = 2 /\
     deleted_shaders (events rd) = created_shaders (events rd) /\
     fetched_logs (events rd) = [] /\ cerr_texts (events rd) = []) /\
    (link_results (events rv) = [true] ->
     compile_results (events rv) = [true; true] /\
     created_programs (events rv) = [value rv] /\
     deleted_programs (events rv) = [] /\
     List.length (created_shaders (events rv)) = 2 /\
     deleted_shaders (events rv) = created_shaders (events rv) /\
     fetched_logs (events rv) = [] /\ cerr_texts (events rv) = []).
Proof.
  intros drv s v f; split; split_run; read_run; intros R; try discriminate R;
    repeat split.
Qed.

Lemma linked_build_returns_program_witness :
  let drv := Toy.driver Toy.glsl None in
  created_programs (events (Desktop.createShaderProgram drv
     Desktop.vertexShaderSrc Desktop.fragmentShaderSrc Toy.init)) = [3%N] /\
  created_programs (events (VxWorks.createProgram drv
     VxWorks.vertexShaderSrc VxWorks.fragmentShaderSrc Toy.init)) = [3%N].
Proof.
  pose (drv := Toy.driver Toy.glsl None).
  split.
  - exact (proj1 (proj2 (proj1 (linked_build_returns_program drv Toy.init
      Desktop.vertexShaderSrc Desktop.fragmentShaderSrc) eq_refl))).
  - exact (proj1 (proj2 (proj2 (linked_build_returns_program drv Toy.init
      VxWorks.vertexShaderSrc VxWorks.fragmentShaderSrc) eq_refl))).
Defined.

(** X2: a build deletes only objects it created, and none of them twice:
    the shaders it deletes are, in order, among the shaders it created, and
    so for programs. *)
Theorem build_deletes_only_its_own :
  forall (drv : Driver) (s : gl_state drv) (vtxSrc fragSrc : string),
    let rd := Desktop.createShaderProgram drv vtxSrc fragSrc s in
    let rv := VxWorks.createProgram drv vtxSrc fragSrc s in
    (subseq (deleted_shaders (events rd)) (created_shaders (events rd)) = true /\
     subseq (deleted_programs (events rd)) (created_programs (events rd)) = true) /\
    (subseq (deleted_shaders (events rv)) (created_shaders (events rv)) = true /\
     subseq (deleted_programs (events rv)) (created_programs (events rv)) = true).
Proof.
  intros drv s v f; split; split_run; read_run; split; read_subseq.
Qed.

(** X3: a build attaches nothing, or attaches to the one program it created
    the vertex shader and then the fragment shader it created, both with a
    handle other than zero and both compiled. *)
Theorem build_attaches_compiled_shaders :
  forall (drv : Driver) (s : gl_state drv) (vtxSrc fragSrc : string),
    let s1 := stage_state drv s GL_VERTEX_SHADER vtxSrc in
    let hv := stage_handle drv s GL_VERTEX_SHADER in
    let hf := stage_handle drv s1 GL_FRAGMENT_SHADER in
    let p := link_handle drv (stage_state drv s1 GL_FRAGMENT_SHADER fragSrc) in
    let rd := Desktop.createShaderProgram drv vtxSrc fragSrc s in
    let rv := VxWorks.createProgram drv vtxSrc fragSrc s in
    (attached (events rd) = [] \/
     attached (events rd) = [(p, hv); (p, hf)] /\ hv <> 0%N /\ hf <> 0%N /\
     compile_results (events rd) = [true; true] /\
     created_shaders (events rd) = [hv; hf] /\
     created_programs (events rd) = [p]) /\
    (attached (events rv) = [] \/
     attached (events rv) = [(p, hv); (p, hf)] /\ hv <> 0%N /\ hf <> 0%N /\
     compile_results (events rv) = [true; true] /\
     created_shaders (events rv) = [hv; hf] /\
     created_programs (events rv) = [p]).
Proof.
  intros drv s v f; split; split_run; read_run; cbn [attached flat_map app];
    try (left; reflexivity); right;
    repeat match goal with
           | H : (_ =? 0)%N = false |- _ => apply N.eqb_neq in H
           end;
    repeat split; assumption.
Qed.

(** X4: whatever a compile stage or a link step fetches of a log is a
    prefix of the log the driver holds: only a tail can be lost. *)
Theorem fetched_log_is_prefix :
  forall (drv : Driver) (s : gl_state drv) (type : GLenum) (source : string)
         (vs fs : GLuint),
    forallb (fun l => String.prefix l (stage_log drv s type source))
      (fetched_logs (events (Desktop.compileShader drv type source s)) ++
       fetched_logs (events (VxWorks.loadShader drv type source s))) = true /\
    forallb (fun l => String.prefix l (link_log drv s vs fs))
      (fetched_logs (events (Desktop.linkProgram drv vs fs s)) ++
       fetched_logs (events (VxWorks.linkProgram drv vs fs s))) = true.
Proof.
  intros drv s type source vs fs.
  rewrite compileShader_eq, loadShader_eq, Desktop_linkProgram_eq,
    VxWorks_linkProgram_eq; cbv zeta.
  destruct (stage_status drv s type source =? 0)%Z,
    (1 <? stage_log_length drv s type source)%Z,
    ((vs =? 0)%N || (fs =? 0)%N),
    (link_status drv s vs fs =? 0)%Z,
    (1 <? link_log_length drv s vs fs)%Z;
    read_run; cbn [forallb]; unfold written_log;
    rewrite ?truncate_prefix; split; reflexivity.
Qed.

(** X5: the 512-byte buffer of src/main.cpp holds a log of up to 511
    characters whole and no longer one: on a failed compile, and on a failed
    link, the text fetched is the driver's log exactly when the log has at
    most 511 characters. *)
Theorem desktop_log_whole_iff_short :
  forall (drv : Driver) (s : gl_state drv) (type : GLenum) (source : string)
         (vs fs : GLuint),
    (stage_status drv s type source = 0%Z ->
     (fetched_logs (events (Desktop.compileShader drv type source s)) =
        [stage_log drv s type source] <->
      String.length (stage_log drv s type source) <= 511)) /\
    (vs <> 0%N -> fs <> 0%N -> link_status drv s vs fs = 0%Z ->
     (fetched_logs (events (Desktop.linkProgram drv vs fs s)) =
        [link_log drv s vs fs] <->
      String.length (link_log drv s vs fs) <= 511)).
Proof.
  intros drv s type source vs fs; split.
  - intros H; rewrite compileShader_eq; cbv zeta; rewrite H.
    change (0 =? 0)%Z with true; cbv iota; read_run.
    rewrite <- truncate_whole_iff; unfold written_log.
    change (Z.to_nat (512 - 1)) with 511.
    split; [intros E; injection E; auto | intros E; rewrite E; reflexivity].
  - intros Hv Hf H; rewrite Desktop_linkProgram_eq; cbv zeta; rewrite H.
    apply N.eqb_neq in Hv, Hf; rewrite Hv, Hf.
    change (0 =? 0)%Z with true; cbv iota; cbn [orb]; read_run.
    rewrite <- truncate_whole_iff; unfold written_log.
    change (Z.to_nat (512 - 1)) with 511.
    split; [intros E; injection E; auto | intros E; rewrite E; reflexivity].
Qed.

Lemma desktop_log_whole_iff_short_witness :
  let drv := Toy.driver (Toy.verbose 512) (Some "error: v_color not written") in
  fetched_logs (events (Desktop.compileShader drv GL_VERTEX_SHADER Toy.broken Toy.init))
    <> [stage_log drv Toy.init GL_VERTEX_SHADER Toy.broken] /\
  fetched_logs (events (Desktop.linkProgram drv 1 2 Toy.init)) =
    ["error: v_color not written"].
Proof.
  pose (drv := Toy.driver (Toy.verbose 512) (Some "error: v_color not written")).
  destruct (desktop_log_whole_iff_short drv Toy.init GL_VERTEX_SHADER Toy.broken 1 2)
    as [Hc Hl].
  split.
  - intros E; apply (proj1 (Hc eq_refl)) in E.
    vm_compute in E; lia.
  - apply (proj2 (Hl ltac:(discriminate) ltac:(discriminate) eq_refl)).
    vm_compute; lia.
Defined.

(** X6: src/main_vxworks.cpp loses nothing of a log whose length the driver
    reports truly: on a failed compile, and on a failed link, with a log
    that is not empty and a reported length of its characters plus one, the
    line written is the tag, the whole log and a line feed. *)
Theorem vxworks_writes_whole_log :
  forall (drv : Driver) (s : gl_state drv) (type : GLenum) (source : string)
         (vs fs : GLuint),
    (stage_status drv s type source = 0%Z ->
     stage_log drv s type source <> ""%string ->
     stage_log_length drv s type source =
       (Z.of_nat (String.length (stage_log drv s type source)) + 1)%Z ->
     cerr_texts (events (VxWorks.loadShader drv type source s)) =
       [VxWorks.compile_tag ++ stage_log drv s type source ++ nl]%string) /\
    (vs <> 0%N -> fs <> 0%N -> link_status drv s vs fs = 0%Z ->
     link_log drv s vs fs <> ""%string ->
     link_log_length drv s vs fs =
       (Z.of_nat (String.length (link_log drv s vs fs)) + 1)%Z ->
     cerr_texts (events (VxWorks.linkProgram drv vs fs s)) =
       [VxWorks.link_tag ++ link_log drv s vs fs ++ nl]%string).
Proof.
  assert (L : forall l : string, l <> ""%string ->
              (1 <? Z.of_nat (String.length l) + 1)%Z = true).
  { intros [|c l] H; [contradiction|]; apply Z.ltb_lt; cbn [String.length]; lia. }
  intros drv s type source vs fs; split.
  - intros H N E; rewrite loadShader_eq; cbv zeta; rewrite H, E, (L _ N).
    change (0 =? 0)%Z with true; cbv iota; read_run.
    rewrite written_log_fits by lia; reflexivity.
  - intros Hv Hf H N E; rewrite VxWorks_linkProgram_eq; cbv zeta.
    apply N.eqb_neq in Hv, Hf; rewrite Hv, Hf, H, E, (L _ N).
    change (0 =? 0)%Z with true; cbv iota; cbn [orb]; read_run.
    rewrite written_log_fits by lia; reflexivity.
Qed.

Lemma vxworks_writes_whole_log_witness :
  let drv := Toy.driver (Toy.verbose 600) (Some "error: v_color not written") in
  map String.length
    (cerr_texts (events (VxWorks.loadShader drv GL_VERTEX_SHADER Toy.broken Toy.init))) =
    [String.length VxWorks.compile_tag + 600 + 1] /\
  cerr_texts (events (VxWorks.linkProgram drv 1 2 Toy.init)) =
    [VxWorks.link_tag ++ "error: v_color not written" ++ nl]%string.
Proof.
  intros drv.
  destruct (vxworks_writes_whole_log drv Toy.init GL_VERTEX_SHADER Toy.broken 1 2)
    as [Hc Hl].
  split.
  - rewrite (Hc eq_refl ltac:(vm_compute; discriminate) eq_refl).
    vm_compute; reflexivity.
  - exact (Hl ltac:(discriminate) ltac:(discriminate) eq_refl
              ltac:(discriminate) eq_refl).
Defined.

(** X7: how many shaders a build deletes.  Each stage that fails to compile
    deletes its own shader.  The two shaders of stages that compiled are
    deleted by src/main.cpp when it goes on to link, whatever the link
    gives, and by src/main_vxworks.cpp when the link succeeds. *)
Theorem shader_deletion_count :
  forall (drv : Driver) (s : gl_state drv) (vtxSrc fragSrc : string),
    let rd := Desktop.createShaderProgram drv vtxSrc fragSrc s in
    let rv := VxWorks.createProgram drv vtxSrc fragSrc s in
    ((link_results (events rd) = [] ->
      List.length (deleted_shaders (events rd)) =
        List.length (filter negb (compile_results (events rd)))) /\
     (link_results (events rd) <> [] ->
      List.length (deleted_shaders (events rd)) = 2)) /\
    ((link_results (events rv) <> [true] ->
      List.length (deleted_shaders (events rv)) =
        List.length (filter negb (compile_results (events rv)))) /\
     (link_results (events rv) = [true] ->
      List.length (deleted_shaders (events rv)) = 2)).
Proof.
  intros drv s v f; split; split_run; read_run; split; intros R;
    try reflexivity; try discriminate R; exfalso; apply R; reflexivity.
Qed.

Lemma shader_deletion_count_witness :
  let drv := Toy.driver Toy.glsl (Some "error: v_color not written") in
  List.length (deleted_shaders (events (Desktop.createShaderProgram drv
     Desktop.vertexShaderSrc Desktop.fragmentShaderSrc Toy.init))) = 2 /\
  List.length (deleted_shaders (events (VxWorks.createProgram drv
     VxWorks.vertexShaderSrc VxWorks.fragmentShaderSrc Toy.init))) = 0.
Proof.
  intros drv; split.
  - apply (proj2 (proj1 (shader_deletion_count drv Toy.init
      Desktop.vertexShaderSrc Desktop.fragmentShaderSrc))).
    vm_compute; discriminate.
  - rewrite (proj1 (proj2 (shader_deletion_count drv Toy.init
      VxWorks.vertexShaderSrc VxWorks.fragmentShaderSrc)));
      [reflexivity | vm_compute; discriminate].
Defined.

(** X8: step by step the two copies go the same way.  Their compile stages
    return the same value, leave the driver in the same state and make the
    same state-changing calls, and are the same run when the compile
    succeeds; their link steps return the same value, and are the same run
    unless the link fails. *)
Theorem steps_of_copies_agree :
  forall (drv : Driver) (s : gl_state drv) (type : GLenum) (source : string)
         (vs fs : GLuint),
    let cd := Desktop.compileShader drv type source s in
    let cv := VxWorks.loadShader drv type source s in
    let ld := Desktop.linkProgram drv vs fs s in
    let lv := VxWorks.linkProgram drv vs fs s in
    (value cd = value cv /\ final cd = final cv /\
     commands (events cd) = commands (events cv) /\
     (stage_status drv s type source <> 0%Z -> cd = cv)) /\
    (value ld = value lv /\
     (link_results (events ld) <> [false] -> ld = lv)).
Proof.
  intros drv s type source vs fs; cbv zeta.
  rewrite compileShader_eq, loadShader_eq, Desktop_linkProgram_eq,
    VxWorks_linkProgram_eq; cbv zeta.
  split.
  - destruct (stage_status drv s type source =? 0)%Z eqn:E;
      [apply Z.eqb_eq in E; rewrite E;
       destruct (1 <? stage_log_length drv s type source)%Z|];
      read_run; repeat split; congruence.
  - destruct ((vs =? 0)%N || (fs =? 0)%N);
      [|destruct (link_status drv s vs fs =? 0)%Z eqn:E;
        [destruct (1 <? link_log_length drv s vs fs)%Z|]];
      read_run; repeat split; congruence.
Qed.

Lemma steps_of_copies_agree_witness :
  let drv := Toy.driver Toy.glsl None in
  Desktop.compileShader drv GL_VERTEX_SHADER Desktop.vertexShaderSrc Toy.init =
  VxWorks.loadShader drv GL_VERTEX_SHADER Desktop.vertexShaderSrc Toy.init /\
  Desktop.linkProgram drv 1 2 Toy.init = VxWorks.linkProgram drv 1 2 Toy.init.
Proof.
  intros drv.
  destruct (steps_of_copies_agree drv Toy.init GL_VERTEX_SHADER
              Desktop.vertexShaderSrc 1 2) as [[_ [_ [_ Hc]]] [_ Hl]].
  split.
  - apply Hc; vm_compute; discriminate.
  - apply Hl; vm_compute; discriminate.
Defined.

(** ** The hosts *)

(** Splits on the next test of a host, once what it tests is named. *)
Ltac host_test :=
  match goal with
  | |- context [if ?c then _ else _] =>
      lazymatch c with
      | context [respond] => fail
      | context [if _ then _ else _] => fail
      | _ => let E := fresh "E" in destruct c eqn:E
      end
  end.

(** Evaluates the readings of a run of a host on the events that are
    known. *)
Ltac read_host :=
  cbn [result state_after calls fst snd app];
  unfold times, pipeline_events, host_stderr, all_stderr, used_programs,
    enabled_arrays, disabled_arrays, drawn, delays, close_answers, key_answers,
    attribute_locations, close_requests, created_windows, windows_used in *;
  cbn [flat_map filter map app called is_glfwTerminate is_glDrawArrays is_swap
       is_glfwPollEvents is_taskDelay is_release is_gl_call List.length repeat].

Lemma flat_map_Pipeline {B : Type} (f : host_event -> list B) (es : list event) :
  flat_map f (map Pipeline es) = flat_map (fun e => f (Pipeline e)) es.
Proof. induction es as [|e es IH]; cbn [map flat_map]; congruence. Qed.

Lemma flat_map_nothing {A B : Type} (l : list A) :
  flat_map (fun _ : A => @nil B) l = [].
Proof. induction l; auto. Qed.

Lemma flat_map_each {A : Type} (l : list A) :
  flat_map (fun a : A => [a]) l = l.
Proof. induction l; cbn [flat_map app]; congruence. Qed.

Lemma filter_called_Pipeline (q : forall R : Type, api R -> bool) (es : list event) :
  filter (called q) (map Pipeline es) = [].
Proof. induction es; auto. Qed.

(** Evaluates the readings of a run of a host over the parts of its
    events. *)
Ltac read_trace :=
  cbn [app];
  unfold times, pipeline_events, host_stderr, all_stderr, used_programs,
    enabled_arrays, disabled_arrays, drawn, delays, close_answers, key_answers,
    attribute_locations, close_requests, created_windows, windows_used in *;
  cbn [flat_map filter map app called is_glfwTerminate is_glDrawArrays
       is_swap is_glfwPollEvents is_taskDelay is_release is_gl_call
       List.length repeat];
  repeat (rewrite ?flat_map_app, ?filter_app, ?length_app, ?flat_map_Pipeline,
            ?filter_called_Pipeline;
          cbn [flat_map filter map app called is_glfwTerminate is_glDrawArrays
               is_swap is_glfwPollEvents is_taskDelay is_release is_gl_call
               List.length repeat];
          rewrite ?flat_map_nothing, ?flat_map_each, ?app_nil_r).

(** Puts in what is known of the events of the parts of a run. *)
Ltac use_facts :=
  repeat match goal with
         | H : flat_map _ _ = _ |- _ => rewrite H
         | H : List.length _ = _ |- _ => rewrite H
         end;
  rewrite ?app_nil_r.

(** *** The render loop of src/main.cpp *)

Section RenderLoop.

Variable p : Platform.
Variables (window : Z) (shaderProgram VAO : GLuint).

(** One more pass in front of a run of the loop. *)
Lemma render_loop_S (fuel : nat) (s : gl_state (gl p)) :
  DesktopMain.render_loop p (S fuel) window shaderProgram VAO s =
  let a := respond p s (glfwWindowShouldClose window) in
  if (fst a =? 0)%Z then
    let k := respond p (snd a) (glfwGetKey window GLFW_KEY_ESCAPE) in
    let pressed := (fst k =? GLFW_PRESS p)%Z in
    let s1 := if pressed
              then snd (respond p (snd k) (glfwSetWindowShouldClose window 1))
              else snd k in
    let s2 := snd (respond p s1 (glClearColor f1 f1 f1 f1)) in
    let s3 := snd (respond p s2 (glClear GL_COLOR_BUFFER_BIT)) in
    let s4 := snd (respond p s3 (glUseProgram shaderProgram)) in
    let s5 := snd (respond p s4 (glBindVertexArray VAO)) in
    let s6 := snd (respond p s5 (glDrawArrays GL_TRIANGLES 0 3)) in
    let s7 := snd (respond p s6 (glfwSwapBuffers window)) in
    let s8 := snd (respond p s7 glfwPollEvents) in
    let r := DesktopMain.render_loop p fuel window shaderProgram VAO s8 in
    (result r, state_after r,
     [Called (glfwWindowShouldClose window) (fst a);
      Called (glfwGetKey window GLFW_KEY_ESCAPE) (fst k)] ++
     (if pressed
      then [Called (glfwSetWindowShouldClose window 1)
              (fst (respond p (snd k) (glfwSetWindowShouldClose window 1)))]
      else []) ++
     [Called (glClearColor f1 f1 f1 f1) (fst (respond p s1 (glClearColor f1 f1 f1 f1)));
      Called (glClear GL_COLOR_BUFFER_BIT) (fst (respond p s2 (glClear GL_COLOR_BUFFER_BIT)));
      Called (glUseProgram shaderProgram) (fst (respond p s3 (glUseProgram shaderProgram)));
      Called (glBindVertexArray VAO) (fst (respond p s4 (glBindVertexArray VAO)));
      Called (glDrawArrays GL_TRIANGLES 0 3)
        (fst (respond p s5 (glDrawArrays GL_TRIANGLES 0 3)));
      Called (glfwSwapBuffers window) (fst (respond p s6 (glfwSwapBuffers window)));
      Called glfwPollEvents (fst (respond p s7 glfwPollEvents))] ++
     calls r)
  else
    (true, snd a, [Called (glfwWindowShouldClose window) (fst a)]).
Proof.
  cbv zeta; cbn [DesktopMain.render_loop].
  unfold Host.bind at 1, Host.call at 1; cbn [fst snd].
  destruct (fst (respond p s (glfwWindowShouldClose window)) =? 0)%Z;
    [|reflexivity].
  unfold Host.bind, Host.call, Host.ret; cbn [fst snd].
  destruct (fst (respond p (snd (respond p s (glfwWindowShouldClose window)))
                   (glfwGetKey window GLFW_KEY_ESCAPE)) =? GLFW_PRESS p)%Z;
    cbn [fst snd];
    match goal with
    | |- context [DesktopMain.render_loop p fuel window shaderProgram VAO ?s] =>
        destruct (DesktopMain.render_loop p fuel window shaderProgram VAO s)
          as [[? ?] ?]
    end; reflexivity.
Qed.

(** What every run of the loop is like, [n] being the number of its
    draws. *)
Lemma render_loop_run (fuel : nat) :
  forall s : gl_state (gl p),
    let r := DesktopMain.render_loop p fuel window shaderProgram VAO s in
    let n := List.length (drawn (calls r)) in
    pipeline_events (calls r) = [] /\ all_stderr (calls r) = [] /\
    times is_release (calls r) = 0 /\ times is_glfwTerminate (calls r) = 0 /\
    used_programs (calls r) = repeat shaderProgram n /\
    drawn (calls r) = repeat (0, 3)%Z n /\
    times is_swap (calls r) = n /\ times is_glfwPollEvents (calls r) = n /\
    host_stderr (calls r) = [] /\ created_windows (calls r) = [] /\
    forallb (Z.eqb window) (windows_used (calls r)) = true /\
    List.length (key_answers (calls r)) = n /\
    close_requests (calls r) =
      map (fun _ => (window, 1%Z))
        (filter (fun k => (k =? GLFW_PRESS p)%Z) (key_answers (calls r))) /\
    (if result r
     then exists c, c <> 0%Z /\ close_answers (calls r) = repeat 0%Z n ++ [c]
     else close_answers (calls r) = repeat 0%Z n /\ n = fuel).
Proof.
  induction fuel as [|fuel IH]; intros s.
  - cbv zeta; cbn [DesktopMain.render_loop Host.ret]; read_host.
    repeat split.
  - rewrite render_loop_S; cbv zeta.
    destruct (fst (respond p s (glfwWindowShouldClose window)) =? 0)%Z eqn:E.
    + match goal with
      | |- context [DesktopMain.render_loop p fuel window shaderProgram VAO ?s] =>
          specialize (IH s);
          destruct (DesktopMain.render_loop p fuel window shaderProgram VAO s)
            as [[l s'] es]
      end.
      cbv zeta in IH; cbn [calls result state_after fst snd] in IH.
      apply Z.eqb_eq in E; rewrite E.
      destruct IH as (I1 & I2 & I3 & I3' & I4 & I5 & I6 & I7 & J1 & J2 & J3 &
                      I8 & I9 & I10).
      destruct (fst (respond p (snd (respond p s (glfwWindowShouldClose window)))
                   (glfwGetKey window GLFW_KEY_ESCAPE)) =? GLFW_PRESS p)%Z eqn:K;
        read_host; cbn [filter map forallb]; rewrite ?K, ?Z.eqb_refl;
        cbn [map andb];
        (repeat split; try assumption; try congruence);
        (destruct l; cbv iota;
         [destruct I10 as (ans & Hc & Hl); eexists;
          (split; [eassumption|]); rewrite Hl; reflexivity
         | destruct I10 as (Hl & Hn); split; congruence]).
    + read_host; cbn [forallb]; rewrite ?Z.eqb_refl; repeat split.
      eexists; split; [apply Z.eqb_neq; eassumption | reflexivity].
Qed.

End RenderLoop.

(** *** The last loop of src/main_vxworks.cpp *)

Section DelayLoop.

Variable p : Platform.

Lemma delay_loop_S (fuel : nat) (s : gl_state (gl p)) :
  VxWorksMain.delay_loop p (S fuel) s =
  let a := respond p s (taskDelay 60) in
  let r := VxWorksMain.delay_loop p fuel (snd a) in
  (result r, state_after r, Called (taskDelay 60) (fst a) :: calls r).
Proof.
  cbv zeta; cbn [VxWorksMain.delay_loop]; unfold Host.bind at 1, Host.call at 1.
  cbn [fst snd].
  destruct (VxWorksMain.delay_loop p fuel (snd (respond p s (taskDelay 60))))
    as [[? ?] ?]; reflexivity.
Qed.

(** The loop is never left, and does nothing but wait. *)
Lemma delay_loop_run (fuel : nat) :
  forall s : gl_state (gl p),
    let r := VxWorksMain.delay_loop p fuel s in
    result r = false /\ delays (calls r) = repeat 60%Z fuel /\
    pipeline_events (calls r) = [] /\ all_stderr (calls r) = [] /\
    host_stderr (calls r) = [] /\
    times is_release (calls r) = 0 /\ times is_swap (calls r) = 0 /\
    drawn (calls r) = [] /\ used_programs (calls r) = [] /\
    enabled_arrays (calls r) = [] /\ disabled_arrays (calls r) = [] /\
    attribute_locations (calls r) = [].
Proof.
  induction fuel as [|fuel IH]; intros s; cbv zeta.
  - cbn [VxWorksMain.delay_loop Host.ret]; read_host; repeat split.
  - rewrite delay_loop_S; cbv zeta.
    specialize (IH (snd (respond p s (taskDelay 60)))); cbv zeta in IH.
    destruct (VxWorksMain.delay_loop p fuel (snd (respond p s (taskDelay 60))))
      as [[b s'] es].
    cbn [result calls fst snd] in IH; read_host.
    destruct IH as (I1 & I2 & I3 & I4 & I5 & I6 & I7 & I8 & I9 & I10 & I11 & I12).
    repeat split; try assumption; congruence.
Qed.

End DelayLoop.

(** *** The two [main] functions *)

(** A build that returns a program created it, deleted none and wrote
    nothing. *)
Lemma built_program :
  forall (drv : Driver) (s : gl_state drv) (vtxSrc fragSrc : string),
    let rd := Desktop.createShaderProgram drv vtxSrc fragSrc s in
    let rv := VxWorks.createProgram drv vtxSrc fragSrc s in
    (value rd <> 0%N ->
     created_programs (events rd) = [value rd] /\
     deleted_programs (events rd) = [] /\ cerr_texts (events rd) = []) /\
    (value rv <> 0%N ->
     created_programs (events rv) = [value rv] /\
     deleted_programs (events rv) = [] /\ cerr_texts (events rv) = []).
Proof.
  intros drv s v f; split; split_run; read_run; intros R;
    try (exfalso; apply R; reflexivity); repeat split.
Qed.

(** Names the answer of the next call, and the outcome of the next run of
    the pipeline or of a loop, made from a state that is a variable. *)
Ltac host_step :=
  match goal with
  | |- context [respond ?p ?s ?c] =>
      is_var s;
      let r := fresh "r" in let s' := fresh "s" in
      destruct (respond p s c) as [r s']; cbn [fst snd]
  | |- context [let '(_, _) := ?x in _] =>
      is_var x; destruct x as [[? ?] ?]
  | |- context [Desktop.createShaderProgram ?d ?v ?f ?s] =>
      is_var s;
      let B := fresh "B" in
      pose proof (proj1 (built_program d s v f)) as B; cbv zeta in B;
      destruct (Desktop.createShaderProgram d v f s) as [[? ?] ?];
      cbn [value events fst snd] in B; cbn [fst snd]
  | |- context [VxWorks.createProgram ?d ?v ?f ?s] =>
      is_var s;
      let B := fresh "B" in
      pose proof (proj2 (built_program d s v f)) as B; cbv zeta in B;
      destruct (VxWorks.createProgram d v f s) as [[? ?] ?];
      cbn [value events fst snd] in B; cbn [fst snd]
  | |- context [DesktopMain.render_loop ?p ?fuel ?w ?pr ?v ?s] =>
      is_var s;
      let L := fresh "L" in
      pose proof (render_loop_run p w pr v fuel s) as L; cbv zeta in L;
      destruct (DesktopMain.render_loop p fuel w pr v s) as [[? ?] ?];
      cbn [result calls state_after fst snd] in L; cbn [fst snd]
  | |- context [VxWorksMain.delay_loop ?p ?fuel ?s] =>
      is_var s;
      let L := fresh "L" in
      pose proof (delay_loop_run p fuel s) as L; cbv zeta in L;
      destruct (VxWorksMain.delay_loop p fuel s) as [[? ?] ?];
      cbn [result calls state_after fst snd] in L; cbn [fst snd]
  | |- context [drvDeleteProgram ?d ?s ?h] =>
      is_var s;
      let s' := fresh "s" in
      generalize (drvDeleteProgram d s h); intros s'
  end.

(** Follows a host along each of its paths. *)
Ltac run_host :=
  unfold Host.bind, Host.call, Host.cerr, Host.cout, Host.ret, Host.pipeline,
    glDeleteProgram;
  cbn [fst snd];
  repeat (first [host_step | host_test]; cbn [fst snd]);
  repeat match goal with u : unit |- _ => destruct u end;
  cbn [result calls fst snd].

(** The same, with the run kept under one name while its paths are
    followed. *)
Ltac run_named m :=
  let r := fresh "run" in
  let Hr := fresh "Hrun" in
  remember m as r eqn:Hr; revert Hr;
  unfold DesktopMain.main, VxWorksMain.vx_main;
  run_host; intros ->; cbn [result calls fst snd].

(** Takes apart what is known of the last loop of [vx_main]. *)
Ltac delay_facts :=
  repeat match goal with
         | L : _ = false /\ _ |- _ =>
             destruct L as (? & ? & ? & ? & ? & ? & ? & ? & ? & ? & ? & ?)
         end;
  try discriminate.

(** X9: when [main] of src/main.cpp returns 0, its last five calls delete
    the vertex array, the buffer and the shader program and close the
    window and GLFW, in this order; the program is the one the pipeline
    built, it is not zero, every frame used it, and before these calls
    nothing was released. *)
Theorem main_releases_at_exit :
  forall (p : Platform) (fuel : nat) (s : gl_state (gl p)),
    let r := DesktopMain.main p fuel s in
    result r = Some 0%Z ->
    exists (window : Z) (shaderProgram VAO VBO : GLuint) (before : list host_event),
      calls r = before ++
        [Called (glDeleteVertexArrays 1 VAO) tt; Called (glDeleteBuffers 1 VBO) tt;
         Pipeline (EvDeleteProgram shaderProgram);
         Called (glfwDestroyWindow window) tt; Called glfwTerminate tt] /\
      shaderProgram <> 0%N /\
      created_programs (pipeline_events before) = [shaderProgram] /\
      deleted_programs (pipeline_events before) = [] /\
      used_programs before = repeat shaderProgram (List.length (drawn before)) /\
      times is_release before = 0.
Proof.
  intros p fuel s; cbv zeta; unfold DesktopMain.main.
  run_host.
  all: intros R; try discriminate R.
  all: apply N.eqb_neq in E3; destruct (B E3) as (B1 & B2 & B3);
    destruct L as (L1 & L2 & L3 & L3' & L4 & L5 & L6).
  all: do 4 eexists; eexists.
  all: split; [cbn [app map]; rewrite !app_comm_cons, app_assoc; reflexivity|].
  all: split; [eassumption|].
  all: read_trace; cbn [Nat.add]; rewrite L1, app_nil_r; auto.
Qed.

Lemma main_releases_at_exit_witness :
  let r := DesktopMain.main ToyPlatform.working 5 (ToyPlatform.start 2) in
  exists (window : Z) (shaderProgram VAO VBO : GLuint) (before : list host_event),
    calls r = before ++
      [Called (glDeleteVertexArrays 1 VAO) tt; Called (glDeleteBuffers 1 VBO) tt;
       Pipeline (EvDeleteProgram shaderProgram);
       Called (glfwDestroyWindow window) tt; Called glfwTerminate tt] /\
    shaderProgram <> 0%N /\
    created_programs (pipeline_events before) = [shaderProgram] /\
    deleted_programs (pipeline_events before) = [] /\
    used_programs before = repeat shaderProgram (List.length (drawn before)) /\
    times is_release before = 0.
Proof.
  exact (main_releases_at_exit ToyPlatform.working 5 (ToyPlatform.start 2) eq_refl).
Defined.

(** X10: [main] of src/main.cpp returns 0 or -1 and nothing else; when it
    returns -1 it has drawn nothing, has not asked whether the window should
    close and has made no OpenGL call of its own. *)
Theorem main_exit_codes :
  forall (p : Platform) (fuel : nat) (s : gl_state (gl p)),
    let r := DesktopMain.main p fuel s in
    (forall c, result r = Some c -> c = 0%Z \/ c = (-1)%Z) /\
    (result r = Some (-1)%Z ->
     drawn (calls r) = [] /\ close_answers (calls r) = [] /\
     times is_gl_call (calls r) = 0).
Proof.
  intros p fuel s; cbv zeta; run_named (DesktopMain.main p fuel s).
  all: (split; [intros c R; try discriminate R; injection R as <-; auto|]).
  all: intros R; try discriminate R.
  all: read_trace; auto.
Qed.

Lemma main_exit_codes_witness :
  let r := DesktopMain.main ToyPlatform.no_glfw 5 (ToyPlatform.start 2) in
  drawn (calls r) = [] /\ close_answers (calls r) = [] /\
  times is_gl_call (calls r) = 0.
Proof.
  exact (proj2 (main_exit_codes ToyPlatform.no_glfw 5 (ToyPlatform.start 2)) eq_refl).
Defined.

(** X11: [main] of src/main.cpp and [glfwTerminate].  A run that returns
    has not called [glfwTerminate] exactly when the one line [main] itself
    wrote to [std::cerr] is "Failed to initialize GLFW" or "Failed to
    initialize GLEW"; it then returns -1.  Every other run that returns ends
    with a call of [glfwTerminate], and that call is its only one. *)
Theorem main_terminates_glfw :
  forall (p : Platform) (fuel : nat) (s : gl_state (gl p)) (c : Z),
    let r := DesktopMain.main p fuel s in
    let skipped :=
      host_stderr (calls r) = ["Failed to initialize GLFW" ++ nl]%string \/
      host_stderr (calls r) = ["Failed to initialize GLEW" ++ nl]%string in
    result r = Some c ->
    (skipped <-> times is_glfwTerminate (calls r) = 0) /\
    (skipped -> c = (-1)%Z) /\
    (~ skipped ->
     exists before,
       calls r = before ++ [Called glfwTerminate tt] /\
       times is_glfwTerminate before = 0).
Proof.
  intros p fuel s c; cbv zeta; run_named (DesktopMain.main p fuel s).
  all: intros R; try discriminate R; injection R as <-.
  all: try destruct L as (_ & _ & _ & L3 & _ & _ & _ & _ & L9 & _).
  all: (split; [|split]).
  all: try (intros N; exfalso; apply N; read_trace; auto; fail).
  all: try (intros _; eexists;
            (split; [rewrite ?app_nil_r, !app_assoc; reflexivity|]);
            read_trace; rewrite ?L3; reflexivity).
  all: read_trace; rewrite ?L3, ?L9; cbn [Nat.add app].
  all: try (intros _; reflexivity).
  all: try (intros [H|H]; cbn in H; discriminate H).
  all: (split; [intros [H|H]; try reflexivity; cbn in H; discriminate H
               | intros H; auto; discriminate H]).
Qed.

Lemma main_terminates_glfw_witness :
  times is_glfwTerminate
    (calls (DesktopMain.main ToyPlatform.no_glfw 5 (ToyPlatform.start 2))) = 0 /\
  exists before,
    calls (DesktopMain.main ToyPlatform.working 5 (ToyPlatform.start 2)) =
      before ++ [Called glfwTerminate tt] /\
    times is_glfwTerminate before = 0.
Proof.
  split.
  - apply (proj1 (proj1 (main_terminates_glfw ToyPlatform.no_glfw 5
                           (ToyPlatform.start 2) (-1)%Z eq_refl))).
    left; reflexivity.
  - apply (proj2 (proj2 (main_terminates_glfw ToyPlatform.working 5
                           (ToyPlatform.start 2) 0%Z eq_refl))).
    intros [H|H]; discriminate H.
Defined.

(** X12: the frames of [main] of src/main.cpp.  Every pass of the loop
    draws three vertices from the first, once, swaps the buffers once and
    polls once.  In a run that does not return -1 the program given to
    [glUseProgram] in every pass is the one program the pipeline created,
    which is not zero; [main] has created one window, which is not zero, and
    every call that takes a window is given this one; the window is asked to
    close, with the value true, in the passes where [glfwGetKey] answers
    [GLFW_PRESS], and these passes draw like the others.  A run that returns
    -1 has made no pass.  The loop is left at the first answer of
    [glfwWindowShouldClose] that is not zero. *)
Theorem main_frames :
  forall (p : Platform) (fuel : nat) (s : gl_state (gl p)),
    let r := DesktopMain.main p fuel s in
    let n := List.length (drawn (calls r)) in
    drawn (calls r) = repeat (0, 3)%Z n /\
    times is_swap (calls r) = n /\ times is_glfwPollEvents (calls r) = n /\
    List.length (key_answers (calls r)) = n /\
    (result r <> Some (-1)%Z ->
     exists (window : Z) (shaderProgram : GLuint),
       created_windows (calls r) = [window] /\ window <> 0%Z /\
       created_programs (pipeline_events (calls r)) = [shaderProgram] /\
       shaderProgram <> 0%N /\
       used_programs (calls r) = repeat shaderProgram n /\
       forallb (Z.eqb window) (windows_used (calls r)) = true /\
       close_requests (calls r) =
         map (fun _ => (window, 1%Z))
           (filter (fun k => (k =? GLFW_PRESS p)%Z) (key_answers (calls r)))) /\
    (result r = Some (-1)%Z ->
     n = 0 /\ used_programs (calls r) = [] /\ close_requests (calls r) = [] /\
     key_answers (calls r) = []) /\
    (result r = Some 0%Z ->
     exists c, c <> 0%Z /\ close_answers (calls r) = repeat 0%Z n ++ [c]) /\
    (result r = None -> close_answers (calls r) = repeat 0%Z n /\ n = fuel).
Proof.
  intros p fuel s; cbv zeta; run_named (DesktopMain.main p fuel s).
  all: try (destruct L as (L1 & L2 & L3 & L3' & L4 & L5 & L6 & L7 & J1 & J2 & J3 &
                           L8 & L9 & L10);
            destruct L10 as [L10 L11]).
  all: repeat match goal with
              | H : (_ =? 0)%Z = false |- _ => apply Z.eqb_neq in H
              | H : (_ =? 0)%N = false |- _ => apply N.eqb_neq in H
              end.
  all: try match goal with
           | B : ?g <> 0%N -> _, H : ?g <> 0%N |- _ =>
               destruct (B H) as (B1 & B2 & B3)
           end.
  all: read_trace; unfold created_programs in *;
    rewrite ?flat_map_app, ?forallb_app; cbn [flat_map app forallb Nat.add];
    rewrite ?Nat.add_0_r, ?app_nil_r, ?Z.eqb_refl; cbn [andb].
  all: repeat match goal with |- _ /\ _ => split end;
    try assumption; try reflexivity; try (intros R; discriminate R).
  all: try (intros R; exfalso; apply R; reflexivity).
  all: try (intros _; repeat split; fail).
  all: try (intros _; eexists; eexists;
            rewrite ?forallb_app; cbn [forallb];
            (split; [rewrite J2; reflexivity|]);
            (split; [assumption|]);
            (split; [rewrite L1, B1; reflexivity|]);
            (split; [assumption|]);
            (split; [assumption|]);
            (split; [rewrite ?Z.eqb_refl, J3; reflexivity | assumption])).
  all: intros _; eauto.
Qed.

Lemma main_frames_witness :
  let r := DesktopMain.main ToyPlatform.working 5 (ToyPlatform.start 2) in
  let n := List.length (drawn (calls r)) in
  (exists c, c <> 0%Z /\ close_answers (calls r) = repeat 0%Z n ++ [c]) /\
  (exists (window : Z) (shaderProgram : GLuint),
     created_windows (calls r) = [window] /\ window <> 0%Z /\
     created_programs (pipeline_events (calls r)) = [shaderProgram] /\
     shaderProgram <> 0%N /\
     used_programs (calls r) = repeat shaderProgram n /\
     forallb (Z.eqb window) (windows_used (calls r)) = true /\
     close_requests (calls r) =
       map (fun _ => (window, 1%Z))
         (filter (fun k => (k =? GLFW_PRESS ToyPlatform.working)%Z)
            (key_answers (calls r)))) /\
  (let r' := DesktopMain.main ToyPlatform.working 1 (ToyPlatform.start 2) in
   close_answers (calls r') = repeat 0%Z (List.length (drawn (calls r'))) /\
   List.length (drawn (calls r')) = 1) /\
  (let r' := DesktopMain.main ToyPlatform.no_linker 5 (ToyPlatform.start 2) in
   List.length (drawn (calls r')) = 0 /\ used_programs (calls r') = [] /\
   close_requests (calls r') = [] /\ key_answers (calls r') = []).
Proof.
  pose proof (main_frames ToyPlatform.working 5 (ToyPlatform.start 2)) as H5.
  pose proof (main_frames ToyPlatform.working 1 (ToyPlatform.start 2)) as H1.
  pose proof (main_frames ToyPlatform.no_linker 5 (ToyPlatform.start 2)) as H0.
  cbv zeta in *.
  destruct H5 as (_ & _ & _ & _ & Hw & _ & Hc & _).
  destruct H1 as (_ & _ & _ & _ & _ & _ & _ & Hn).
  destruct H0 as (_ & _ & _ & _ & _ & Hf & _).
  repeat match goal with |- _ /\ _ => split end.
  - exact (Hc eq_refl).
  - apply Hw; discriminate.
  - exact (proj1 (Hn eq_refl)).
  - exact (proj2 (Hn eq_refl)).
  - exact (proj1 (Hf eq_refl)).
  - exact (proj1 (proj2 (Hf eq_refl))).
  - exact (proj1 (proj2 (proj2 (Hf eq_refl)))).
  - exact (proj2 (proj2 (proj2 (Hf eq_refl)))).
Defined.

(** X14: [vx_main] of src/main_vxworks.cpp never returns 0 and never gives
    back what it holds: no run destroys the EGL surface or context or
    terminates the display.  What it returns is -1, and the run is then the
    same whatever the bound on its last loop. *)
Theorem vx_main_never_returns_zero :
  forall (p : Platform) (fuel : nat) (s : gl_state (gl p)),
    let r := VxWorksMain.vx_main p fuel s in
    result r <> Some 0%Z /\
    times is_release (calls r) = 0 /\
    (forall c fuel', result r = Some c ->
       c = (-1)%Z /\ VxWorksMain.vx_main p fuel' s = r).
Proof.
  intros p fuel s; cbv zeta; run_named (VxWorksMain.vx_main p fuel s);
    delay_facts.
  all: (split; [discriminate|]).
  all: (split; [read_trace; cbn [Nat.add]; auto; lia
               | intros c fuel' R; try discriminate R; injection R as <-;
                 split; reflexivity]).
Qed.

Lemma vx_main_never_returns_zero_witness :
  VxWorksMain.vx_main ToyPlatform.no_linker 9 (ToyPlatform.start 0) =
  VxWorksMain.vx_main ToyPlatform.no_linker 2 (ToyPlatform.start 0).
Proof.
  exact (proj2 (proj2 (proj2 (vx_main_never_returns_zero ToyPlatform.no_linker 2
                                (ToyPlatform.start 0))) (-1)%Z 9 eq_refl)).
Defined.

(** X15: a run of [vx_main] that has not returned has drawn one frame, of
    three vertices from the first, with the program the pipeline built,
    which is not zero and is not deleted, has swapped the buffers once,
    written nothing to [std::cerr], and has since called [taskDelay(60)]
    once per pass of its last loop.  A run that has returned has drawn
    nothing, used no program and made no OpenGL call of its own. *)
Theorem vx_main_renders_once :
  forall (p : Platform) (fuel : nat) (s : gl_state (gl p)),
    let r := VxWorksMain.vx_main p fuel s in
    (result r = None ->
     drawn (calls r) = [(0, 3)%Z] /\ times is_swap (calls r) = 1 /\
     delays (calls r) = repeat 60%Z fuel /\ all_stderr (calls r) = [] /\
     exists program,
       program <> 0%N /\ used_programs (calls r) = [program] /\
       created_programs (pipeline_events (calls r)) = [program] /\
       deleted_programs (pipeline_events (calls r)) = []) /\
    (result r <> None ->
     drawn (calls r) = [] /\ times is_swap (calls r) = 0 /\
     delays (calls r) = [] /\ used_programs (calls r) = [] /\
     times is_gl_call (calls r) = 0).
Proof.
  intros p fuel s; cbv zeta; run_named (VxWorksMain.vx_main p fuel s);
    delay_facts.
  all: (split; intros R; try discriminate R; try (exfalso; apply R; reflexivity)).
  all: read_trace; cbn [Nat.add]; auto.
  apply N.eqb_neq in E5; destruct (B E5) as (B1 & B2 & B3);
    unfold cerr_texts in B3.
  use_facts.
  repeat match goal with |- _ /\ _ => split end; auto.
  exists g; auto.
Qed.

Lemma vx_main_renders_once_witness :
  let r := VxWorksMain.vx_main ToyPlatform.working 4 (ToyPlatform.start 0) in
  let r' := VxWorksMain.vx_main ToyPlatform.no_linker 4 (ToyPlatform.start 0) in
  (drawn (calls r) = [(0, 3)%Z] /\ times is_swap (calls r) = 1 /\
   delays (calls r) = repeat 60%Z 4 /\ all_stderr (calls r) = [] /\
   exists program,
     program <> 0%N /\ used_programs (calls r) = [program] /\
     created_programs (pipeline_events (calls r)) = [program] /\
     deleted_programs (pipeline_events (calls r)) = []) /\
  (drawn (calls r') = [] /\ times is_swap (calls r') = 0 /\
   delays (calls r') = [] /\ used_programs (calls r') = [] /\
   times is_gl_call (calls r') = 0).
Proof.
  split.
  - exact (proj1 (vx_main_renders_once ToyPlatform.working 4 (ToyPlatform.start 0))
             eq_refl).
  - apply (proj2 (vx_main_renders_once ToyPlatform.no_linker 4 (ToyPlatform.start 0))).
    discriminate.
Defined.

(** X16: the attribute arrays of [vx_main].  The indices it enables are the
    answers of [glGetAttribLocation] taken as unsigned, with no test on
    them, so that an answer of -1 gives index 4294967295; the arrays it
    disables are those it enabled, in the same order; a run that has not
    returned has asked for two locations. *)
Theorem vx_main_attribute_arrays :
  forall (p : Platform) (fuel : nat) (s : gl_state (gl p)),
    let r := VxWorksMain.vx_main p fuel s in
    enabled_arrays (calls r) = map to_GLuint (attribute_locations (calls r)) /\
    disabled_arrays (calls r) = enabled_arrays (calls r) /\
    (result r = None -> List.length (attribute_locations (calls r)) = 2) /\
    to_GLuint (-1) = 4294967295%N.
Proof.
  intros p fuel s; cbv zeta; run_named (VxWorksMain.vx_main p fuel s);
    delay_facts.
  all: read_trace; use_facts; cbn [map app List.length].
  all: repeat match goal with |- _ /\ _ => split end;
    try reflexivity; intros R; try discriminate R.
Qed.

Lemma vx_main_attribute_arrays_witness :
  let r := VxWorksMain.vx_main ToyPlatform.no_attribute 3 (ToyPlatform.start 0) in
  List.length (attribute_locations (calls r)) = 2 /\
  enabled_arrays (calls r) = [4294967295%N; 4294967295%N].
Proof.
  split.
  - exact (proj1 (proj2 (proj2 (vx_main_attribute_arrays ToyPlatform.no_attribute 3
                                  (ToyPlatform.start 0)))) eq_refl).
  - exact (proj1 (vx_main_attribute_arrays ToyPlatform.no_attribute 3
                    (ToyPlatform.start 0))).
Defined.

(** X17: what the hosts say when they fail.  When the build of the shader
    program fails in [main] of src/main.cpp, which returns -1, [main] adds
    no line of its own: what reached [std::cerr] is what the pipeline wrote.
    When [vx_main] returns, the last thing it did was to write its one line
    on [std::cerr], one of its seven messages. *)
Theorem hosts_report_failure :
  forall (p : Platform) (fuel : nat) (s : gl_state (gl p)),
    let rd := DesktopMain.main p fuel s in
    let rv := VxWorksMain.vx_main p fuel s in
    (result rd = Some (-1)%Z -> pipeline_events (calls rd) <> [] ->
     host_stderr (calls rd) = [] /\
     all_stderr (calls rd) = cerr_texts (pipeline_events (calls rd))) /\
    (forall c, result rv = Some c ->
     exists before msg,
       calls rv = before ++ [Stderr (msg ++ nl)] /\
       host_stderr before = [] /\
       In msg ["Failed to get EGL display"; "Failed to initialize EGL";
               "Failed to choose EGL config"; "Failed to create EGL surface";
               "Failed to create EGL context";
               "Failed to make EGL context current";
               "Failed to create shader program"]%string).
Proof.
  intros p fuel s; cbv zeta; split;
    [run_named (DesktopMain.main p fuel s)
    | run_named (VxWorksMain.vx_main p fuel s)];
    delay_facts.
  all: try (intros R; try discriminate R; intros P; read_trace;
            try (exfalso; apply P; reflexivity);
            unfold cerr_texts; split; reflexivity).
  all: intros c R; try discriminate R.
  all: do 2 eexists;
    (split; [rewrite ?app_nil_r, ?app_assoc; reflexivity|]);
    (split; [read_trace; reflexivity | cbn [In]; tauto]).
Qed.

Lemma hosts_report_failure_witness :
  let rd := DesktopMain.main ToyPlatform.no_linker 3 (ToyPlatform.start 2) in
  let rv := VxWorksMain.vx_main ToyPlatform.no_linker 3 (ToyPlatform.start 0) in
  (host_stderr (calls rd) = [] /\
   all_stderr (calls rd) = cerr_texts (pipeline_events (calls rd))) /\
  (exists before msg,
     calls rv = before ++ [Stderr (msg ++ nl)] /\
     host_stderr before = [] /\
     In msg ["Failed to get EGL display"; "Failed to initialize EGL";
             "Failed to choose EGL config"; "Failed to create EGL surface";
             "Failed to create EGL context";
             "Failed to make EGL context current";
             "Failed to create shader program"]%string).
Proof.
  split.
  - apply (proj1 (hosts_report_failure ToyPlatform.no_linker 3 (ToyPlatform.start 2)));
      [reflexivity | vm_compute; discriminate].
  - exact (proj2 (hosts_report_failure ToyPlatform.no_linker 3 (ToyPlatform.start 0))
             (-1)%Z eq_refl).
Defined.
